(** * A shallow embedding of [bot.py], the Telegram relay of the helpingai bot

    The repository is one Python module.  Its only logic lives in
    [AIBot.get_ai_response] (build a chat request, post it, fold the streamed
    answer into one string, map every failure to a fixed sentence) and in the
    start-up guard of [main].  The development follows the module top-down:

    - Python data: [str] as a sequence of code points, the values [json.loads]
      can produce ([pyval]), exceptions ([exn]);
    - Python effects: a small exception-and-trace monad [M], generators as the
      finite sequence of what they yield and how they end;
    - the module itself: configuration, [extract_content], the accumulation
      loop, [get_ai_response], [main];
    - a reference JSON reader used to run the model on concrete streams;
    - the properties. *)

From Stdlib Require Import Ascii String.
From Stdlib Require Import List ZArith NArith Bool Lia.
From Stdlib Require Import Floats.SpecFloat.
Import ListNotations.
Local Open Scope list_scope.

(** ** Python strings *)

(** A Python [str] is a sequence of Unicode code points. *)
Definition char := N.
Definition str := list char.

(** [ch "a"] is the code point of an ASCII character and [u "text"] the [str]
    of an ASCII literal. *)
Definition ch (a : ascii) : char := N_of_ascii a.
Definition u (s : string) : str := map N_of_ascii (list_ascii_of_string s).
Arguments ch a%_char.
Arguments u s%_string.

Module Str.

Fixpoint eqb (a b : str) : bool :=
  match a, b with
  | [], [] => true
  | x :: a', y :: b' => N.eqb x y && eqb a' b'
  | _, _ => false
  end.

(** [s.startswith(p)] and the slice [s[len(p):]] behind it: [remove_prefix p s]
    is [Some rest] when [s = p ++ rest]. *)
Fixpoint remove_prefix (p s : str) : option str :=
  match p, s with
  | [], _ => Some s
  | x :: p', y :: s' => if N.eqb x y then remove_prefix p' s' else None
  | _ :: _, [] => None
  end.

(** [c.isspace()]: the code points Python's Unicode database marks as
    whitespace. *)
Definition isspace (c : char) : bool :=
  ((9 <=? c) && (c <=? 13) || (28 <=? c) && (c <=? 32)
   || (c =? 133) || (c =? 160) || (c =? 5760)
   || (8192 <=? c) && (c <=? 8202)
   || (c =? 8232) || (c =? 8233) || (c =? 8239) || (c =? 8287)
   || (c =? 12288))%N.

Fixpoint lstrip (s : str) : str :=
  match s with
  | c :: s' => if isspace c then lstrip s' else s
  | [] => []
  end.

Definition rstrip (s : str) : str := rev (lstrip (rev s)).

(** [s.strip()] with no argument. *)
Definition strip (s : str) : str := rstrip (lstrip s).

(** [''.join(parts)]. *)
Definition join (parts : list str) : str := concat parts.

Definition mem (s : str) (l : list str) : bool := existsb (eqb s) l.

End Str.

(** ** Python values and exceptions *)

(** The values [json.loads] produces.  A [dict] is kept as its items in
    insertion order; its keys are strings. *)
#[local] Unset Elimination Schemes.
Inductive pyval :=
| PNone
| PBool (b : bool)
| PInt (z : Z)
| PFloat (f : spec_float)
| PStr (s : str)
| PList (items : list pyval)
| PDict (items : list (str * pyval)).
#[local] Set Elimination Schemes.

(** The exception classes the module tells apart (every one a subclass of
    [Exception]): [requests.exceptions.RequestException] with its subclasses
    (timeouts, refused connections, broken transfers), the built-in errors a
    subscript or an attribute access raises, and any other [Exception]. *)
Inductive exn :=
| RequestException (detail : str)
| KeyError
| IndexError
| TypeError
| AttributeError
| Exception (detail : str).

Definition is_RequestException (e : exn) : bool :=
  match e with RequestException _ => true | _ => false end.

(** Truth value of an object, as [if content:] tests it. *)
Definition truthy (v : pyval) : bool :=
  match v with
  | PNone => false
  | PBool b => b
  | PInt z => negb (z =? 0)%Z
  | PFloat (S754_zero _) => false
  | PFloat _ => true
  | PStr s => match s with [] => false | _ => true end
  | PList l => match l with [] => false | _ => true end
  | PDict d => match d with [] => false | _ => true end
  end.

Definition is_None (v : pyval) : bool :=
  match v with PNone => true | _ => false end.

(** ** Effects: exceptions and a trace of what the module does to the outside *)

Inductive level := INFO | ERROR.

(** The records the module logs.  The formatted text is kept as the record's
    constructor and the values interpolated into it. *)
Inductive log_message :=
| ApiError (status_code : Z) (text : str)
| RequestError (e : exn)
| UnexpectedError (e : exn)
| TokenNotSet
| StartingBot
| BotRunning.

Record ChatMessage := { role : str; content : str }.

Record ChatRequest := {
  model : str;
  messages : list ChatMessage;
  temperature : spec_float;
  stream : bool
}.

Record PostCall := {
  url : str;
  headers : list (str * str);
  json : ChatRequest;
  verify : bool;
  stream_body : bool;
  timeout : Z
}.

Inductive callback := start | help_command | handle_message.

Inductive handler :=
| CommandHandler (command : str) (cb : callback)
| MessageHandler_text_not_command (cb : callback).

Inductive event :=
| Log (lvl : level) (msg : log_message)
| RequestsPost (call : PostCall)
| ReadText
| IterLines
| ApplicationBuild (token : str)
| AddHandler (h : handler)
| AddErrorHandler
| RunPolling.

Inductive outcome (A : Type) :=
| Return (a : A)
| Raise (e : exn).
Arguments Return {A} a.
Arguments Raise {A} e.

(** A computation: the events it performed, in order, and how it ended. *)
Definition M (A : Type) : Type := list event * outcome A.

Definition ret {A} (a : A) : M A := ([], Return a).
Definition raise {A} (e : exn) : M A := ([], Raise e).
Definition emit (ev : event) : M unit := ([ev], Return tt).

Definition bind {A B} (m : M A) (k : A -> M B) : M B :=
  match snd m with
  | Return a => (fst m ++ fst (k a), snd (k a))
  | Raise e => (fst m, Raise e)
  end.

(** [try: m except Exception as e: h e]. *)
Definition try_except {A} (m : M A) (h : exn -> M A) : M A :=
  match snd m with
  | Return a => m
  | Raise e => (fst m ++ fst (h e), snd (h e))
  end.

Declare Scope py_scope.
Delimit Scope py_scope with py.
Notation "x <- m ;; k" := (bind m (fun x => k))
  (at level 61, m at next level, right associativity) : py_scope.
Notation "m ;; k" := (bind m (fun _ => k))
  (at level 61, right associativity) : py_scope.
Local Open Scope py_scope.

Definition events {A} (m : M A) : list event := fst m.
Definition result {A} (m : M A) : outcome A := snd m.

Definition logger_error (msg : log_message) : M unit := emit (Log ERROR msg).
Definition logger_info (msg : log_message) : M unit := emit (Log INFO msg).

(** A generator (or any iterator), seen by the loop that consumes it: the
    items it yields, then either exhaustion or an exception raised by
    [next]. *)
Inductive generator (A : Type) :=
| StopIteration
| Raises (e : exn)
| Yield (a : A) (rest : generator A).
Arguments StopIteration {A}.
Arguments Raises {A} e.
Arguments Yield {A} a rest.

(** The iterator that yields [items] and then goes on as [g]. *)
Fixpoint yield_from {A} (items : list A) (g : generator A) : generator A :=
  match items with
  | [] => g
  | a :: items' => Yield a (yield_from items' g)
  end.

(** [for a in g: s = body a s], with [s] the variables the body updates. *)
Fixpoint for_each {A S} (g : generator A) (body : A -> S -> M S) (s : S) : M S :=
  match g with
  | StopIteration => ret s
  | Raises e => raise e
  | Yield a rest => s' <- body a s ;; for_each rest body s'
  end.

(** ** The Python operations the module applies to values *)

(** [d.get(key)] on the items of a [dict]. *)
Fixpoint dict_get (items : list (str * pyval)) (key : str) : option pyval :=
  match items with
  | [] => None
  | (k, v) :: items' => if Str.eqb k key then Some v else dict_get items' key
  end.

(** The two kinds of subscript the module writes: a string literal and an
    integer literal. *)
Inductive subscript := Key (k : str) | Index (i : Z).

(** [seq[i]] on a sequence of length [len]: the position read, counting
    from the end when [i] is negative. *)
Definition position (len : nat) (i : Z) : option nat :=
  let n := Z.of_nat len in
  if (0 <=? i)%Z && (i <? n)%Z then Some (Z.to_nat i)
  else if (i <? 0)%Z && (0 <=? i + n)%Z then Some (Z.to_nat (i + n))
  else None.

(** [v[sub]]: a [dict] is looked up by key ([KeyError] when absent; no key of a
    parsed object is an integer), a [list] and a [str] are indexed by
    integers ([IndexError] out of range, [TypeError] for a string subscript),
    nothing else can be subscripted. *)
Definition getitem (v : pyval) (sub : subscript) : M pyval :=
  match v, sub with
  | PDict items, Key k =>
      match dict_get items k with Some x => ret x | None => raise KeyError end
  | PDict _, Index _ => raise KeyError
  | PList items, Index i =>
      match position (length items) i with
      | Some n => match nth_error items n with
                  | Some x => ret x
                  | None => raise IndexError
                  end
      | None => raise IndexError
      end
  | PStr s, Index i =>
      match position (length s) i with
      | Some n => match nth_error s n with
                  | Some c => ret (PStr [c])
                  | None => raise IndexError
                  end
      | None => raise IndexError
      end
  | _, _ => raise TypeError
  end.

(** [v.get(key)]: only a [dict] has the method; an absent key gives [None]. *)
Definition method_get (v : pyval) (key : str) : M pyval :=
  match v with
  | PDict items =>
      match dict_get items key with Some x => ret x | None => ret PNone end
  | _ => raise AttributeError
  end.

(** [s += v] for a [str] [s]. *)
Definition iadd (s : str) (v : pyval) : M str :=
  match v with
  | PStr t => ret (s ++ t)
  | _ => raise TypeError
  end.

(** ** Configuration (lines 16-20) *)

(** The process environment, [os.environ]. *)
Definition environment := list (str * str).

Fixpoint os_getenv (env : environment) (name : str) : option str :=
  match env with
  | [] => None
  | (k, v) :: env' => if Str.eqb k name then Some v else os_getenv env' name
  end.

Definition os_getenv_default (env : environment) (name default : str) : str :=
  match os_getenv env name with Some v => v | None => default end.

(** The literal [0.7] of the request: the binary64 number nearest to 7/10. *)
Definition float_0_7 : spec_float :=
  S754_finite false 6305039478318694 (-53).

(** ** The response of the completion endpoint *)

(** What reading [response.text] gives.  The call is made with
    [stream=True] (line 46), so the body is still on the wire when the
    attribute is read: the read returns the text of the body, or the transfer
    breaks under it, which [requests] reports as a [RequestException] (a
    chunked-encoding, connection or content-decoding error). *)
Inductive text_read :=
| Text (body : str)
| BrokenTransfer (detail : str).

(** What the module reads of a [requests.Response]: the status, the body as
    text (read only for the log record of a failed call) and the iterator
    [iter_lines()], which yields the lines received and ends when the server
    closes the stream, or raises when the transfer breaks. *)
Record Response := {
  status_code : Z;
  text : text_read;
  iter_lines : generator str
}.

(** The type of [sanitize_stream], for the keyword arguments the module
    passes: the data, [intro_value], [skip_markers], [content_extractor]
    ([to_json=True] and [yield_raw_on_error=False] are fixed). *)
Definition stream_sanitizer : Type :=
  generator str -> str -> list str -> (pyval -> M pyval) -> generator pyval.

Module Webscout.

(** Modelled from the spec: the first step of [sanitize_stream] on a line,
    strip the intro marker if present. *)
Definition strip_intro (intro_value line : str) : str :=
  match Str.remove_prefix intro_value line with
  | Some remainder => remainder
  | None => line
  end.

Section Sanitize.

(** [json.loads] of the Python standard library: [None] stands for any
    exception it raises on a text it cannot decode. *)
Variable json_loads : str -> option pyval.

(** Modelled from the spec: the treatment of one raw line inside
    [sanitize_stream], whose code is not among the sources.  In the words of
    the spec's section 4.1: strip the intro marker if present, skip the line
    if it matches a sentinel, otherwise parse the remainder as JSON, a parse
    failure skipping the line. *)
Definition sanitize_line (intro_value : str) (skip_markers : list str)
    (line : str) : option pyval :=
  let remainder := strip_intro intro_value line in
  if Str.mem remainder skip_markers then None else json_loads remainder.

(** Modelled from the spec: [sanitize_stream] is imported from
    [webscout.AIutel] and its code is not among the sources.  The model
    follows the algorithm and the edge cases of the spec's section 4.1: each
    line goes through [sanitize_line], the extraction function is applied to
    what was parsed and the fragment it finds is passed on; when the line
    iterator raises mid-stream the sequence just ends, so that the caller
    keeps what it accumulated.  The extraction function performs no event;
    were it to raise, the exception would reach the consumer. *)
Fixpoint sanitize_stream (data : generator str) (intro_value : str)
    (skip_markers : list str) (content_extractor : pyval -> M pyval)
    : generator pyval :=
  match data with
  | StopIteration => StopIteration
  | Raises _ => StopIteration
  | Yield line rest =>
      let more := sanitize_stream rest intro_value skip_markers content_extractor in
      match sanitize_line intro_value skip_markers line with
      | None => more
      | Some chunk =>
          match result (content_extractor chunk) with
          | Return fragment => if is_None fragment then more else Yield fragment more
          | Raise e => Raises e
          end
      end
  end.

End Sanitize.
End Webscout.

(** ** The module *)

Section Bot.

(** The process environment at import time. *)
Variable environ : environment.

(** The completion endpoint and the network in front of it: what
    [requests.post] does with a call, either a response or an exception. *)
Variable requests_post : PostCall -> outcome Response.

(** The imported [sanitize_stream].  The module is first taken with any
    function of that type; [Webscout.sanitize_stream] is put in its place
    where a property depends on what the library does with the lines. *)
Variable sanitize_stream : stream_sanitizer.

Definition TELEGRAM_TOKEN : option str := os_getenv environ (u "TELEGRAM_TOKEN").
Definition AI_BASE_URL : str :=
  os_getenv_default environ (u "AI_BASE_URL") (u "https://tender-taxes-sniff.loca.lt/v1").
Definition AI_API_KEY : str :=
  os_getenv_default environ (u "AI_API_KEY") (u "token-abc123").
Definition AI_MODEL : str :=
  os_getenv_default environ (u "AI_MODEL") (u "HelpingAI/Dhanishtha-2.0-preview").

(** [AIBot.__init__]. *)
Definition AIBot_headers : list (str * str) :=
  [ (u "Authorization", u "Bearer " ++ AI_API_KEY);
    (u "Content-Type", u "application/json") ].

(** *** [AIBot.get_ai_response] (lines 29-80) *)

(** Lines 56-60. *)
Definition extract_content (chunk : pyval) : M pyval :=
  try_except
    (choices <- getitem chunk (Key (u "choices")) ;;
     choice <- getitem choices (Index 0) ;;
     delta <- getitem choice (Key (u "delta")) ;;
     method_get delta (u "content"))
    (fun _ => ret PNone).

(** The body of the loop, lines 70-71. *)
Definition accumulate (content : pyval) (full_response : str) : M str :=
  if truthy content then iadd full_response content else ret full_response.

Definition connection_trouble : str :=
  u "Sorry, I'm having trouble connecting to the AI service.".
Definition no_response : str := u "I couldn't generate a response.".
Definition something_wrong : str :=
  u "Sorry, something went wrong while processing your request.".

(** Line 73. *)
Definition final_text (full_response : str) : str :=
  if truthy (PStr full_response) then Str.strip full_response else no_response.

Definition chat_request (user_message : str) : ChatRequest :=
  {| model := AI_MODEL;
     messages := [ {| role := u "user"; content := user_message |} ];
     temperature := float_0_7;
     stream := true |}.

Definition post_call (user_message : str) : PostCall :=
  {| url := AI_BASE_URL ++ u "/chat/completions";
     headers := AIBot_headers;
     json := chat_request user_message;
     verify := false;
     stream_body := true;
     timeout := 30 |}.

Definition do_requests_post (call : PostCall) : M Response :=
  ([RequestsPost call], requests_post call).

(** [response.text], read inside the [try]. *)
Definition do_text (response : Response) : M str :=
  emit ReadText ;;
  match text response with
  | Text body => ret body
  | BrokenTransfer detail => raise (RequestException detail)
  end.

Definition do_iter_lines (response : Response) : M (generator str) :=
  emit IterLines ;; ret (iter_lines response).

(** Lines 62-71: the loop over what [sanitize_stream] yields. *)
Definition stream_loop (lines : generator str) (full_response : str) : M str :=
  for_each
    (sanitize_stream lines (u "data:") [u "[DONE]"; u ""] extract_content)
    accumulate full_response.

(** Lines 75-80: the two [except] clauses, tried in order. *)
Definition except_handlers (e : exn) : M str :=
  if is_RequestException e then
    logger_error (RequestError e) ;; ret connection_trouble
  else
    logger_error (UnexpectedError e) ;; ret something_wrong.

Definition get_ai_response (user_message : str) : M str :=
  try_except
    (response <- do_requests_post (post_call user_message) ;;
     if negb (status_code response =? 200)%Z then
       body <- do_text response ;;
       logger_error (ApiError (status_code response) body) ;;
       ret connection_trouble
     else
       let full_response := u "" in
       lines <- do_iter_lines response ;;
       full_response <- stream_loop lines full_response ;;
       ret (final_text full_response))
    except_handlers.

(** *** [main] (lines 124-145) *)

(** [not TELEGRAM_TOKEN]: true of [None] and of the empty string. *)
Definition not_token (token : option str) : bool :=
  match token with
  | None => true
  | Some t => negb (truthy (PStr t))
  end.

Definition main : M unit :=
  if not_token TELEGRAM_TOKEN then
    logger_error TokenNotSet ;; ret tt
  else
    logger_info StartingBot ;;
    emit (ApplicationBuild (match TELEGRAM_TOKEN with Some t => t | None => [] end)) ;;
    emit (AddHandler (CommandHandler (u "start") start)) ;;
    emit (AddHandler (CommandHandler (u "help") help_command)) ;;
    emit (AddHandler (MessageHandler_text_not_command handle_message)) ;;
    emit AddErrorHandler ;;
    logger_info BotRunning ;;
    emit RunPolling.

End Bot.

(** ** A reference reader for JSON texts *)

(** The module never looks inside [json.loads]; the properties below hold for
    any decoder.  To run the model on concrete streams a decoder is needed:
    [Json.loads] reads the grammar Python's decoder accepts (RFC 8259 plus the
    literals [NaN], [Infinity] and [-Infinity]) and builds the values Python
    builds: [int] for a number without fraction or exponent, binary64 [float]
    otherwise, [dict] with the last of two equal keys winning. *)
Module Json.

Definition quote : char := 34%N.
Definition backslash : char := 92%N.

Definition is_ws (c : char) : bool :=
  ((c =? 32) || (c =? 9) || (c =? 10) || (c =? 13))%N.

Fixpoint skip_ws (s : str) : str :=
  match s with
  | c :: s' => if is_ws c then skip_ws s' else s
  | [] => []
  end.

Definition is_digit (c : char) : bool := ((48 <=? c) && (c <=? 57))%N.

(** The longest run of decimal digits at the head of [s], and the rest. *)
Fixpoint span_digits (s : str) : list char * str :=
  match s with
  | c :: s' =>
      if is_digit c then let (ds, r) := span_digits s' in (c :: ds, r)
      else ([], s)
  | [] => ([], [])
  end.

Definition Z_of_digits (ds : list char) : Z :=
  fold_left (fun acc d => (10 * acc + Z.of_N (d - 48))%Z) ds 0%Z.

Definition hex_val (c : char) : option N :=
  (if (48 <=? c) && (c <=? 57) then Some (c - 48)
   else if (65 <=? c) && (c <=? 70) then Some (c - 55)
   else if (97 <=? c) && (c <=? 102) then Some (c - 87)
   else None)%N.

(** Four hexadecimal digits at the head of [s]. *)
Definition hex4 (s : str) : option (N * str) :=
  match s with
  | a :: b :: c :: d :: r =>
      match hex_val a, hex_val b, hex_val c, hex_val d with
      | Some x, Some y, Some z, Some w => Some (((x * 16 + y) * 16 + z) * 16 + w, r)%N
      | _, _, _, _ => None
      end
  | _ => None
  end.

Definition simple_escape (c : char) : option char :=
  (if c =? quote then Some quote
   else if c =? backslash then Some backslash
   else if c =? ch "/" then Some (ch "/")
   else if c =? ch "b" then Some 8
   else if c =? ch "f" then Some 12
   else if c =? ch "n" then Some 10
   else if c =? ch "r" then Some 13
   else if c =? ch "t" then Some 9
   else None)%N.

(** The text of a string after its opening quote, up to the closing one
    (strict mode: no raw control character).  A high surrogate escape followed
    by a low one is one code point. *)
Fixpoint scanstring (fuel : nat) (s acc : str) : option (str * str) :=
  match fuel with
  | O => None
  | S fuel' =>
      match s with
      | [] => None
      | c :: r =>
          if (c =? quote)%N then Some (rev acc, r)
          else if (c =? backslash)%N then
            match r with
            | [] => None
            | e :: r' =>
                if (e =? ch "u")%N then
                  match hex4 r' with
                  | None => None
                  | Some (uni, r1) =>
                      if ((55296 <=? uni) && (uni <=? 56319))%N then
                        match r1 with
                        | b :: x :: r2 =>
                            if ((b =? backslash) && (x =? ch "u"))%N then
                              match hex4 r2 with
                              | None => None
                              | Some (uni2, r3) =>
                                  if ((56320 <=? uni2) && (uni2 <=? 57343))%N then
                                    scanstring fuel' r3
                                      ((65536 + ((uni - 55296) * 1024 + (uni2 - 56320)))%N :: acc)
                                  else scanstring fuel' r1 (uni :: acc)
                              end
                            else scanstring fuel' r1 (uni :: acc)
                        | _ => scanstring fuel' r1 (uni :: acc)
                        end
                      else scanstring fuel' r1 (uni :: acc)
                  end
                else
                  match simple_escape e with
                  | Some x => scanstring fuel' r' (x :: acc)
                  | None => None
                  end
            end
          else if (c <? 32)%N then None
          else scanstring fuel' r (c :: acc)
      end
  end.

(** The binary64 number nearest to [m * 10 ^ e10] (ties to even), negative
    when [neg]. *)
Definition float_of_decimal (neg : bool) (m : Z) (e10 : Z) : spec_float :=
  match m with
  | Zpos p =>
      if (0 <=? e10)%Z then
        binary_normalize 53 1024
          (if neg then - (m * 10 ^ e10) else m * 10 ^ e10)%Z 0 neg
      else
        SFdiv 53 1024 (S754_finite neg p 0)
          (S754_finite false (Z.to_pos (10 ^ (- e10))) 0)
  | _ => S754_zero neg
  end.

(** [int] refuses a literal of more digits than this ([sys.int_info]'s
    [default_max_str_digits]); the decoder fails with it. *)
Definition max_str_digits : nat := 4300.

(** A number: an optional minus sign, an integer part (a lone zero, or digits
    not starting with zero), an optional fraction (a dot and digits) and an
    optional exponent (e or E, an optional sign, digits).  A dot or an e that
    no digit follows is left in the text.  An integer literal longer than
    [max_str_digits] is an error. *)
Definition match_number (s : str) : option (pyval * str) :=
  let (neg, s1) :=
    match s with
    | c :: r => if (c =? ch "-")%N then (true, r) else (false, s)
    | [] => (false, s)
    end in
  let (all, r_all) := span_digits s1 in
  match all with
  | [] => None
  | d :: _ =>
      let (int_ds, r1) := if (d =? ch "0")%N then ([d], tl s1) else (all, r_all) in
      let (frac_ds, r2) :=
        match r1 with
        | c :: r =>
            if (c =? ch ".")%N then
              match span_digits r with
              | ([], _) => ([], r1)
              | (ds, r') => (ds, r')
              end
            else ([], r1)
        | [] => ([], r1)
        end in
      let '(exp, r3) :=
        match r2 with
        | c :: r =>
            if ((c =? ch "e") || (c =? ch "E"))%N then
              let (eneg, r') :=
                match r with
                | sg :: r'' =>
                    if (sg =? ch "-")%N then (true, r'')
                    else if (sg =? ch "+")%N then (false, r'')
                    else (false, r)
                | [] => (false, r)
                end in
              match span_digits r' with
              | ([], _) => (None, r2)
              | (ds, r'') =>
                  (Some (if eneg then - Z_of_digits ds else Z_of_digits ds)%Z, r'')
              end
            else (None, r2)
        | [] => (None, r2)
        end in
      match frac_ds, exp with
      | [], None =>
          if (max_str_digits <? length int_ds)%nat then None
          else
            Some (PInt (if neg then - Z_of_digits int_ds else Z_of_digits int_ds)%Z, r3)
      | _, _ =>
          let e := match exp with Some e => e | None => 0%Z end in
          Some (PFloat (float_of_decimal neg (Z_of_digits (int_ds ++ frac_ds))
                          (e - Z.of_nat (length frac_ds))), r3)
      end
  end.

(** [dict] assignment [d[key] = v] on the items. *)
Fixpoint dict_set (items : list (str * pyval)) (key : str) (v : pyval)
    : list (str * pyval) :=
  match items with
  | [] => [(key, v)]
  | (k, x) :: items' =>
      if Str.eqb k key then (k, v) :: items' else (k, x) :: dict_set items' key v
  end.

Definition literal (word : string) (v : pyval) (s : str) : option (pyval * str) :=
  match Str.remove_prefix (u word) s with
  | Some r => Some (v, r)
  | None => None
  end.

(** [scan_once] reads one value at the head of the text; [members] reads the
    pairs of an object from just after the quote opening a key, [elements]
    the items of an array from the start of an item. *)
Fixpoint scan_once (fuel : nat) (s : str) : option (pyval * str) :=
  match fuel with
  | O => None
  | S fuel' =>
      match s with
      | [] => None
      | c :: r =>
          if (c =? quote)%N then
            match scanstring (length r) r [] with
            | Some (t, r') => Some (PStr t, r')
            | None => None
            end
          else if (c =? ch "{")%N then
            match skip_ws r with
            | c' :: r' =>
                if (c' =? ch "}")%N then Some (PDict [], r')
                else if (c' =? quote)%N then members fuel' r' []
                else None
            | [] => None
            end
          else if (c =? ch "[")%N then
            match skip_ws r with
            | c' :: r' =>
                if (c' =? ch "]")%N then Some (PList [], r')
                else elements fuel' (c' :: r') []
            | [] => None
            end
          else if (c =? ch "n")%N then literal "null" PNone s
          else if (c =? ch "t")%N then literal "true" (PBool true) s
          else if (c =? ch "f")%N then literal "false" (PBool false) s
          else
            match match_number s with
            | Some res => Some res
            | None =>
                if (c =? ch "N")%N then literal "NaN" (PFloat S754_nan) s
                else if (c =? ch "I")%N then
                  literal "Infinity" (PFloat (S754_infinity false)) s
                else if (c =? ch "-")%N then
                  literal "-Infinity" (PFloat (S754_infinity true)) s
                else None
            end
      end
  end
with members (fuel : nat) (s : str) (acc : list (str * pyval))
    : option (pyval * str) :=
  match fuel with
  | O => None
  | S fuel' =>
      match scanstring (length s) s [] with
      | None => None
      | Some (key, r1) =>
          match skip_ws r1 with
          | c :: r2 =>
              if (c =? ch ":")%N then
                match scan_once fuel' (skip_ws r2) with
                | None => None
                | Some (v, r3) =>
                    match skip_ws r3 with
                    | c' :: r4 =>
                        if (c' =? ch "}")%N then Some (PDict (dict_set acc key v), r4)
                        else if (c' =? ch ",")%N then
                          match skip_ws r4 with
                          | q :: r5 =>
                              if (q =? quote)%N then members fuel' r5 (dict_set acc key v)
                              else None
                          | [] => None
                          end
                        else None
                    | [] => None
                    end
                end
              else None
          | [] => None
          end
      end
  end
with elements (fuel : nat) (s : str) (acc : list pyval) : option (pyval * str) :=
  match fuel with
  | O => None
  | S fuel' =>
      match scan_once fuel' s with
      | None => None
      | Some (v, r1) =>
          match skip_ws r1 with
          | c :: r2 =>
              if (c =? ch "]")%N then Some (PList (rev (v :: acc)), r2)
              else if (c =? ch ",")%N then elements fuel' (skip_ws r2) (v :: acc)
              else None
          | [] => None
          end
      end
  end.

(** [json.loads(s)]: one value between optional whitespace, nothing after.
    Every nested call consumes a character, so twice the length of the text
    is fuel enough. *)
Definition loads (s : str) : option pyval :=
  match scan_once (2 * length s + 2) (skip_ws s) with
  | Some (v, r) => match skip_ws r with [] => Some v | _ :: _ => None end
  | None => None
  end.

End Json.

(** ** Vocabulary of the properties *)

(** The value found at [choices[0].delta.content] of a parsed chunk when
    every step of the path exists with the expected type: the field of the
    spec's StreamChunk, read by pattern matching instead of by catching
    exceptions. *)
Definition delta_content (chunk : pyval) : option pyval :=
  match chunk with
  | PDict top =>
      match dict_get top (u "choices") with
      | Some (PList (PDict choice :: _)) =>
          match dict_get choice (u "delta") with
          | Some (PDict delta) => dict_get delta (u "content")
          | _ => None
          end
      | _ => None
      end
  | _ => None
  end.

(** The same, with Python's [None] for an absent field. *)
Definition content_or_None (chunk : pyval) : pyval :=
  match delta_content chunk with
  | Some v => v
  | None => PNone
  end.

Definition is_dict (v : pyval) : bool :=
  match v with PDict _ => true | _ => false end.

Definition is_list (v : pyval) : bool :=
  match v with PList _ => true | _ => false end.

(** The shapes of a chunk that lack the content field. *)
Inductive lacks_content : pyval -> Prop :=
| not_an_object chunk :
    is_dict chunk = false -> lacks_content chunk
| missing_choices top :
    dict_get top (u "choices") = None -> lacks_content (PDict top)
| non_list_choices top choices :
    dict_get top (u "choices") = Some choices -> is_list choices = false ->
    lacks_content (PDict top)
| empty_choices top :
    dict_get top (u "choices") = Some (PList []) -> lacks_content (PDict top)
| choice_not_an_object top choice others :
    dict_get top (u "choices") = Some (PList (choice :: others)) ->
    is_dict choice = false -> lacks_content (PDict top)
| missing_delta top choice others :
    dict_get top (u "choices") = Some (PList (PDict choice :: others)) ->
    dict_get choice (u "delta") = None -> lacks_content (PDict top)
| non_object_delta top choice others delta :
    dict_get top (u "choices") = Some (PList (PDict choice :: others)) ->
    dict_get choice (u "delta") = Some delta -> is_dict delta = false ->
    lacks_content (PDict top)
| missing_content top choice others delta :
    dict_get top (u "choices") = Some (PList (PDict choice :: others)) ->
    dict_get choice (u "delta") = Some (PDict delta) ->
    dict_get delta (u "content") = None -> lacks_content (PDict top).

(** A raw line of the form [data: {...}] whose JSON text decodes to a chunk
    with the string [delta] at [choices[0].delta.content]. *)
Definition content_line (json_loads : str -> option pyval) (line delta : str) : Prop :=
  exists body chunk,
    line = u "data: " ++ body /\
    json_loads (ch " " :: body) = Some chunk /\
    delta_content chunk = Some (PStr delta).

(** What [main] does, in order, once past the guard on the token (lines
    130-145). *)
Definition startup_events (token : str) : list event :=
  [ Log INFO StartingBot;
    ApplicationBuild token;
    AddHandler (CommandHandler (u "start") start);
    AddHandler (CommandHandler (u "help") help_command);
    AddHandler (MessageHandler_text_not_command handle_message);
    AddErrorHandler;
    Log INFO BotRunning;
    RunPolling ].

(** The endpoint that answers every call with [response], and the one whose
    call raises [e]. *)
Definition responding (response : Response) : PostCall -> outcome Response :=
  fun _ => Return response.

Definition raising (e : exn) : PostCall -> outcome Response :=
  fun _ => Raise e.

(** A status-200 response whose stream delivers [lines] and then ends as
    [ending] does. *)
Definition streaming (lines : list str) (ending : generator str) : Response :=
  {| status_code := 200; text := Text []; iter_lines := yield_from lines ending |}.

(** ** Concrete inputs *)

(** An ASCII literal with every apostrophe read as a double quote, to write
    JSON texts. *)
Definition dq (s : string) : str :=
  map (fun c => if (c =? ch "'")%N then Json.quote else c) (u s).

(** The lines of the spec's example. *)
Definition example_lines : list str :=
  [ dq "data: {'choices':[{'delta':{'content':'Hel'}}]}";
    dq "data: {'choices':[{'delta':{'content':'lo'}}]}";
    u "data: [DONE]" ].

Definition empty_delta_line : str := dq "data: {'choices':[{'delta':{'content':''}}]}".
Definition blank_delta_line : str := dq "data: {'choices':[{'delta':{'content':' '}}]}".
Definition hello_delta_line : str := dq "data: {'choices':[{'delta':{'content':'Hello '}}]}".

Definition timeout_error : exn := RequestException (u "Read timed out.").

Definition server_error : Response :=
  {| status_code := 500; text := Text (u "Internal Server Error");
     iter_lines := StopIteration |}.

Definition broken_server_error : Response :=
  {| status_code := 500; text := BrokenTransfer (u "Connection broken");
     iter_lines := StopIteration |}.

Definition empty_token_environ : environment := [ (u "TELEGRAM_TOKEN", u "") ].
Definition token_environ : environment := [ (u "TELEGRAM_TOKEN", u "123:abc") ].

(** ** The update handlers (lines 85-122) *)

(** What the handlers read of a [telegram.Update]: the message with its
    text, the user and the chat it comes from.  Each of the three attributes of
    the update may be [None]; reading an attribute of [None] raises
    [AttributeError].  The message handler is registered for text messages
    (line 138), so a message has a text. *)
Module Telegram.

Record User := { first_name : str }.
Record Chat := { id : Z }.
Record Message := { message_id : Z; text : str }.

Record Update := {
  message : option Message;
  effective_user : option User;
  effective_chat : option Chat
}.

End Telegram.

(** The records the handlers log. *)
Inductive handler_log :=
| ReceivedMessage (user_name user_message : str)
| SentResponse (user_name : str)
| ExceptionWhileHandling (error : exn).

(** What a handler does to the outside: its own log records, the calls to the
    Telegram API, and the events of [get_ai_response]. *)
Inductive chat_event :=
| HandlerLog (lvl : level) (msg : handler_log)
| SendChatAction (chat_id : Z) (action : str)
| ReplyText (to : Telegram.Message) (text : str)
| OfBot (ev : event).

Module Handlers.

(** A handler's computation: its events and how it ended. *)
Definition H (A : Type) : Type := list chat_event * outcome A.

Definition hret {A} (a : A) : H A := ([], Return a).
Definition hraise {A} (e : exn) : H A := ([], Raise e).
Definition hemit (ev : chat_event) : H unit := ([ev], Return tt).

Definition hbind {A B} (m : H A) (k : A -> H B) : H B :=
  match snd m with
  | Return a => (fst m ++ fst (k a), snd (k a))
  | Raise e => (fst m, Raise e)
  end.

(** A computation of the bot run from inside a handler. *)
Definition of_bot {A} (m : M A) : H A := (map OfBot (events m), result m).

(** [obj.attr] where [obj] may be [None]. *)
Definition attr {A} (obj : option A) : H A :=
  match obj with
  | Some a => hret a
  | None => hraise AttributeError
  end.

Declare Scope handler_scope.
Delimit Scope handler_scope with handler.
Notation "x <- m ;; k" := (hbind m (fun x => k))
  (at level 61, m at next level, right associativity) : handler_scope.
Notation "m ;; k" := (hbind m (fun _ => k))
  (at level 61, right associativity) : handler_scope.
Local Open Scope handler_scope.

Definition newline : str := [10%N].

Definition start_text : str :=
  u "Hi! I'm an AI assistant bot. Send me any message and I'll respond using AI!"
  ++ newline ++ newline
  ++ u "Commands:" ++ newline
  ++ u "/start - Show this message" ++ newline
  ++ u "/help - Show help information".

Definition help_text : str :=
  u "I'm an AI assistant bot powered by advanced language models."
  ++ newline ++ newline
  ++ u "Just send me any message and I'll respond intelligently!"
  ++ newline ++ newline
  ++ u "You can ask me questions, have conversations, or request help with various topics.".

Section WithApi.

Variable environ : environment.
Variable requests_post : PostCall -> outcome Response.
Variable sanitize_stream : stream_sanitizer.

(** The Telegram API behind [context.bot.send_chat_action] and
    [message.reply_text]: each call succeeds or raises. *)
Variable send_chat_action : Z -> str -> outcome unit.
Variable reply_text : Telegram.Message -> str -> outcome unit.

Definition do_send_chat_action (chat_id : Z) (action : str) : H unit :=
  ([SendChatAction chat_id action], send_chat_action chat_id action).

Definition do_reply_text (to : Telegram.Message) (text : str) : H unit :=
  ([ReplyText to text], reply_text to text).

(** Lines 85-92. *)
Definition start (update : Telegram.Update) : H unit :=
  to <- attr (Telegram.message update) ;;
  do_reply_text to start_text.

(** Lines 94-100. *)
Definition help_command (update : Telegram.Update) : H unit :=
  to <- attr (Telegram.message update) ;;
  do_reply_text to help_text.

(** Lines 102-118. *)
Definition handle_message (update : Telegram.Update) : H unit :=
  msg <- attr (Telegram.message update) ;;
  let user_message := Telegram.text msg in
  user <- attr (Telegram.effective_user update) ;;
  let user_name := Telegram.first_name user in
  hemit (HandlerLog INFO (ReceivedMessage user_name user_message)) ;;
  chat <- attr (Telegram.effective_chat update) ;;
  do_send_chat_action (Telegram.id chat) (u "typing") ;;
  ai_response <-
    of_bot (get_ai_response environ requests_post sanitize_stream user_message) ;;
  to <- attr (Telegram.message update) ;;
  do_reply_text to ai_response ;;
  hemit (HandlerLog INFO (SentResponse user_name)).

(** Lines 120-122: [context.error] is logged, nothing else is done. *)
Definition error_handler (update : Telegram.Update) (error : exn) : H unit :=
  hemit (HandlerLog ERROR (ExceptionWhileHandling error)).

End WithApi.

End Handlers.

(** ** Vocabulary of the further properties *)

Definition is_post (ev : event) : bool :=
  match ev with RequestsPost _ => true | _ => false end.

Definition is_error_log (ev : event) : bool :=
  match ev with Log ERROR _ => true | _ => false end.

Definition is_log (ev : event) : bool :=
  match ev with Log _ _ => true | _ => false end.

Definition is_reply (ev : chat_event) : bool :=
  match ev with ReplyText _ _ => true | _ => false end.

Definition is_of_bot (ev : chat_event) : bool :=
  match ev with OfBot _ => true | _ => false end.

(** A string made of whitespace only (the empty string included). *)
Definition blank (s : str) : Prop := Forall (fun c => Str.isspace c = true) s.

(** A sanitizer that yields [fragments] and ends as [ending], whatever it is
    given. *)
Definition yielding (fragments : list pyval) (ending : generator pyval)
    : stream_sanitizer :=
  fun _ _ _ _ => yield_from fragments ending.

Definition ok_response : Response :=
  {| status_code := 200; text := Text []; iter_lines := StopIteration |}.

Definition alice_update : Telegram.Update :=
  {| Telegram.message := Some {| Telegram.message_id := 7; Telegram.text := u "hi" |};
     Telegram.effective_user := Some {| Telegram.first_name := u "Alice" |};
     Telegram.effective_chat := Some {| Telegram.id := 42 |} |}.

(** The Telegram API when every call succeeds, and when [reply_text] is
    refused. *)
Definition api_ok_action : Z -> str -> outcome unit := fun _ _ => Return tt.
Definition api_ok_reply : Telegram.Message -> str -> outcome unit :=
  fun _ _ => Return tt.
Definition api_refused_reply : Telegram.Message -> str -> outcome unit :=
  fun _ _ => Raise (Exception (u "Message text is empty")).

(** * Properties *)

(** ** The reference reader on a few texts *)

Lemma float_0_7_is_nearest : Json.float_of_decimal false 7 (-1) = float_0_7.
Proof. vm_compute. reflexivity. Qed.

Lemma loads_done_fails : Json.loads (u "[DONE]") = None /\ Json.loads (u "") = None.
Proof. split; vm_compute; reflexivity. Qed.

Lemma loads_numbers :
  Json.loads (u " [0, -12, 2.5, 1e-400] ")
  = Some (PList [PInt 0; PInt (-12);
                 PFloat (S754_finite false 5629499534213120 (-51));
                 PFloat (S754_zero false)]).
Proof. vm_compute. reflexivity. Qed.

(** ** The monad *)

Lemma bind_ret_l {A B} (a : A) (k : A -> M B) : bind (ret a) k = k a.
Proof. unfold bind, ret; simpl. now destruct (k a). Qed.

Lemma bind_raise {A B} (e : exn) (k : A -> M B) : bind (raise e) k = raise e.
Proof. reflexivity. Qed.

Lemma bind_emit {B} (ev : event) (k : unit -> M B) :
  bind (emit ev) k = (ev :: events (k tt), result (k tt)).
Proof. reflexivity. Qed.

Lemma try_except_ret {A} (a : A) (h : exn -> M A) : try_except (ret a) h = ret a.
Proof. reflexivity. Qed.

Lemma try_except_raise {A} (e : exn) (h : exn -> M A) :
  try_except (raise e) h = h e.
Proof. unfold try_except, raise; simpl. now destruct (h e). Qed.

(** A computation that performs no event is its result. *)
Lemma silent_eq {A} (m : M A) : events m = [] -> m = ([], result m).
Proof. destruct m as [evs r]; simpl; intros ->; reflexivity. Qed.

(** ** Strings *)

Lemma Str_eqb_eq (a b : str) : Str.eqb a b = true <-> a = b.
Proof.
  revert b; induction a as [|x a IH]; intros [|y b]; simpl; split;
    try congruence; try reflexivity.
  - intros H; apply andb_prop in H as [Hx Hab].
    apply N.eqb_eq in Hx; apply IH in Hab; congruence.
  - intros [= -> ->]. rewrite N.eqb_refl; simpl. now apply IH.
Qed.

Lemma remove_prefix_app (p s : str) : Str.remove_prefix p (p ++ s) = Some s.
Proof.
  induction p as [|x p IH]; simpl; [reflexivity|].
  now rewrite N.eqb_refl.
Qed.

(** ** [extract_content] *)

(** The try/except of lines 57-60 computes the field of the chunk, [None]
    standing for every way the path can fail. *)
Lemma extract_content_spec (chunk : pyval) :
  extract_content chunk = ret (content_or_None chunk).
Proof.
  unfold extract_content, content_or_None, delta_content.
  destruct chunk as [| | | | |items|top]; try reflexivity.
  simpl getitem.
  destruct (dict_get top (u "choices")) as [choices|]; [|reflexivity].
  rewrite bind_ret_l.
  destruct choices as [| | | |s|items|d]; try reflexivity.
  - (* a string: its first character is a string again, without fields *)
    destruct s as [|c s]; reflexivity.
  - destruct items as [|choice others]; [reflexivity|].
    change (getitem (PList (choice :: others)) (Index 0)) with (ret choice).
    rewrite bind_ret_l.
    destruct choice as [| | | | | |fields]; try reflexivity.
    simpl getitem.
    destruct (dict_get fields (u "delta")) as [delta|]; [|reflexivity].
    rewrite bind_ret_l.
    destruct delta as [| | | | | |inner]; try reflexivity.
    simpl method_get.
    destruct (dict_get inner (u "content")); reflexivity.
Qed.

Lemma lacks_content_None (chunk : pyval) :
  lacks_content chunk -> delta_content chunk = None.
Proof.
  intros H; destruct H as
    [chunk Hd | top H | top c H Hl | top H | top c o H Hd | top c o H Hd
    | top c o d H Hd Ho | top c o d H Hd Hc]; simpl; try rewrite H; try reflexivity.
  - destruct chunk; simpl in Hd; congruence || reflexivity.
  - destruct c; simpl in Hl; congruence || reflexivity.
  - destruct c; simpl in Hd; congruence || reflexivity.
  - now rewrite Hd.
  - rewrite Hd. destruct d; simpl in Ho; congruence || reflexivity.
  - now rewrite Hd.
Qed.

(** ** The loop *)

Lemma accumulate_events (content : pyval) (full_response : str) :
  events (accumulate content full_response) = [].
Proof.
  unfold accumulate, iadd. destruct (truthy content); [|reflexivity].
  destruct content; reflexivity.
Qed.

(** The loop performs no event of its own, whatever it iterates over. *)
Lemma for_each_accumulate_events (g : generator pyval) (full_response : str) :
  events (for_each g accumulate full_response) = [].
Proof.
  revert full_response; induction g as [| e | content rest IH]; intros acc;
    simpl; try reflexivity.
  pose proof (accumulate_events content acc) as Ha.
  unfold bind. destruct (accumulate content acc) as [evs [acc'|e]]; simpl in *.
  - subst evs. simpl. apply IH.
  - assumption.
Qed.

(** Appending string fragments: the loop ends normally with the accumulator
    extended by their concatenation. *)
Lemma for_each_strings (deltas : list str) (g : generator pyval) (acc : str) :
  for_each (yield_from (map PStr deltas) g) accumulate acc
  = for_each g accumulate (acc ++ Str.join deltas).
Proof.
  revert acc; induction deltas as [|d deltas IH]; intros acc; simpl.
  - now rewrite app_nil_r.
  - unfold accumulate at 1. destruct d as [|c d]; simpl truthy; cbv iota.
    + rewrite bind_ret_l, IH. reflexivity.
    + simpl iadd. rewrite bind_ret_l, IH. unfold Str.join; simpl.
      now rewrite <- app_assoc.
Qed.

(** ** [get_ai_response], case by case *)

Section GetAiResponse.

Variable environ : environment.
Variable requests_post : PostCall -> outcome Response.
Variable sanitize_stream : stream_sanitizer.
Variable user_message : str.

#[local] Abbreviation call := (post_call environ user_message).
#[local] Abbreviation run :=
  (get_ai_response environ requests_post sanitize_stream user_message).

Lemma except_handlers_eq (e : exn) :
  except_handlers e =
  if is_RequestException e
  then ([Log ERROR (RequestError e)], Return connection_trouble)
  else ([Log ERROR (UnexpectedError e)], Return something_wrong).
Proof. unfold except_handlers. destruct (is_RequestException e); reflexivity. Qed.

(** [requests.post] raises: the matching handler answers. *)
Lemma get_ai_response_post_raises (e : exn) :
  requests_post call = Raise e ->
  run = (RequestsPost call :: events (except_handlers e), result (except_handlers e)).
Proof.
  intros H.
  unfold get_ai_response, try_except, bind, do_requests_post.
  simpl. rewrite H. reflexivity.
Qed.

(** A status other than 200: the body is read as text for the log record,
    the fixed sentence is returned, and the lines of the body are never asked
    for.  When the read breaks, the handler of line 75 logs and answers. *)
Lemma get_ai_response_bad_status (response : Response) :
  requests_post call = Return response ->
  status_code response <> 200%Z ->
  run = ([RequestsPost call; ReadText;
          Log ERROR
            match text response with
            | Text body => ApiError (status_code response) body
            | BrokenTransfer detail => RequestError (RequestException detail)
            end],
         Return connection_trouble).
Proof.
  intros H Hs.
  unfold get_ai_response, try_except, bind, do_requests_post, do_text.
  simpl. rewrite H. simpl.
  apply Z.eqb_neq in Hs. rewrite Hs. simpl.
  destruct (text response); reflexivity.
Qed.

(** Status 200: the loop runs; its accumulator is trimmed or replaced by
    the placeholder, and an exception leaving the loop is except_handlers. *)
Lemma get_ai_response_ok (response : Response) :
  requests_post call = Return response ->
  status_code response = 200%Z ->
  run =
    match result (stream_loop sanitize_stream (iter_lines response) []) with
    | Return full_response =>
        ([RequestsPost call; IterLines], Return (final_text full_response))
    | Raise e =>
        (RequestsPost call :: IterLines :: events (except_handlers e), result (except_handlers e))
    end.
Proof.
  intros H Hs.
  unfold get_ai_response, try_except, bind, do_requests_post, do_iter_lines.
  simpl. rewrite H. simpl. rewrite Hs. simpl.
  change (u "") with (@nil char).
  pose proof (for_each_accumulate_events
    (sanitize_stream (iter_lines response) (u "data:") [u "[DONE]"; u ""] extract_content) [])
    as Hev.
  unfold stream_loop.
  destruct (for_each _ accumulate []) as [evs [acc|e]]; simpl in *; subst evs.
  - reflexivity.
  - reflexivity.
Qed.

End GetAiResponse.

(** ** Failures of the call *)

(** C5: a response whose status is not 200 gives exactly the sentence
    "Sorry, I'm having trouble connecting to the AI service.".  The body is
    read once as text for the log record: when the read succeeds the record
    is the API error with the status and the text, when the transfer breaks
    under it the record is the request error.  Either way the lines of the
    body are never asked for, whatever [sanitize_stream] would do with
    them. *)
Theorem bad_status_gives_connection_message
    (environ : environment) (requests_post : PostCall -> outcome Response)
    (sanitize_stream : stream_sanitizer) (user_message : str) (response : Response) :
  requests_post (post_call environ user_message) = Return response ->
  status_code response <> 200%Z ->
  result (get_ai_response environ requests_post sanitize_stream user_message)
  = Return (u "Sorry, I'm having trouble connecting to the AI service.")
  /\ (forall body, text response = Text body ->
      events (get_ai_response environ requests_post sanitize_stream user_message)
      = [RequestsPost (post_call environ user_message); ReadText;
         Log ERROR (ApiError (status_code response) body)])
  /\ (forall detail, text response = BrokenTransfer detail ->
      events (get_ai_response environ requests_post sanitize_stream user_message)
      = [RequestsPost (post_call environ user_message); ReadText;
         Log ERROR (RequestError (RequestException detail))])
  /\ ~ In IterLines
       (events (get_ai_response environ requests_post sanitize_stream user_message)).
Proof.
  intros H Hs.
  rewrite (get_ai_response_bad_status _ _ _ _ _ H Hs).
  split; [reflexivity|]. split; [|split].
  - intros body ->. reflexivity.
  - intros detail ->. reflexivity.
  - simpl. intros [F|[F|[F|[]]]]; discriminate F.
Qed.

Lemma bad_status_500_run :
  responding server_error (post_call [] (u "hi")) = Return server_error
  /\ status_code server_error <> 200%Z
  /\ get_ai_response [] (responding server_error)
       (Webscout.sanitize_stream Json.loads) (u "hi")
     = ([RequestsPost (post_call [] (u "hi")); ReadText;
         Log ERROR (ApiError 500 (u "Internal Server Error"))],
        Return (u "Sorry, I'm having trouble connecting to the AI service."))
  /\ get_ai_response [] (responding broken_server_error)
       (Webscout.sanitize_stream Json.loads) (u "hi")
     = ([RequestsPost (post_call [] (u "hi")); ReadText;
         Log ERROR (RequestError (RequestException (u "Connection broken")))],
        Return (u "Sorry, I'm having trouble connecting to the AI service.")).
Proof.
  split; [reflexivity|]. split; [simpl; lia|]. split.
  - destruct (bad_status_gives_connection_message [] (responding server_error)
                (Webscout.sanitize_stream Json.loads) (u "hi") server_error
                eq_refl ltac:(simpl; lia)) as (Hres & Hev & _).
    apply injective_projections; [exact (Hev _ eq_refl)|exact Hres].
  - destruct (bad_status_gives_connection_message [] (responding broken_server_error)
                (Webscout.sanitize_stream Json.loads) (u "hi") broken_server_error
                eq_refl ltac:(simpl; lia)) as (Hres & _ & Hev & _).
    apply injective_projections; [exact (Hev _ eq_refl)|exact Hres].
Defined.

(** C2, as the code has it: a request-level exception raised by
    [requests.post] is logged and answered with the fixed sentence
    "Sorry, I'm having trouble connecting to the AI service.", which is the
    very sentence a non-200 status gets; any other exception raised by the
    call is answered with "Sorry, something went wrong while processing your
    request.", a different answer. *)
Theorem request_exception_gives_connection_message
    (environ : environment) (requests_post : PostCall -> outcome Response)
    (sanitize_stream : stream_sanitizer) (user_message : str) (e : exn) :
  requests_post (post_call environ user_message) = Raise e ->
  is_RequestException e = true ->
  get_ai_response environ requests_post sanitize_stream user_message
  = ([RequestsPost (post_call environ user_message); Log ERROR (RequestError e)],
     Return (u "Sorry, I'm having trouble connecting to the AI service."))
  /\ (forall (requests_post' : PostCall -> outcome Response) (response : Response),
        requests_post' (post_call environ user_message) = Return response ->
        status_code response <> 200%Z ->
        result (get_ai_response environ requests_post' sanitize_stream user_message)
        = result (get_ai_response environ requests_post sanitize_stream user_message))
  /\ (forall (requests_post' : PostCall -> outcome Response) (e' : exn),
        requests_post' (post_call environ user_message) = Raise e' ->
        is_RequestException e' = false ->
        get_ai_response environ requests_post' sanitize_stream user_message
        = ([RequestsPost (post_call environ user_message);
            Log ERROR (UnexpectedError e')],
           Return (u "Sorry, something went wrong while processing your request."))
        /\ result (get_ai_response environ requests_post' sanitize_stream user_message)
           <> result (get_ai_response environ requests_post sanitize_stream
                        user_message)).
Proof.
  intros H He.
  rewrite (get_ai_response_post_raises _ _ _ _ _ H), except_handlers_eq, He.
  split; [reflexivity|]. split.
  - intros post' response H' Hs.
    now rewrite (get_ai_response_bad_status _ _ _ _ _ H' Hs).
  - intros post' e' H' He'.
    rewrite (get_ai_response_post_raises _ _ _ _ _ H'), except_handlers_eq, He'.
    split; [reflexivity|discriminate].
Qed.

Lemma request_timeout_run :
  raising timeout_error (post_call [] (u "hi")) = Raise timeout_error
  /\ is_RequestException timeout_error = true
  /\ result (get_ai_response [] (raising timeout_error)
               (Webscout.sanitize_stream Json.loads) (u "hi"))
     = Return (u "Sorry, I'm having trouble connecting to the AI service.")
  /\ result (get_ai_response [] (raising TypeError)
               (Webscout.sanitize_stream Json.loads) (u "hi"))
     = Return (u "Sorry, something went wrong while processing your request.").
Proof.
  split; [reflexivity|]. split; [reflexivity|].
  destruct (request_exception_gives_connection_message [] (raising timeout_error)
              (Webscout.sanitize_stream Json.loads) (u "hi") timeout_error
              eq_refl eq_refl) as (Hrun & _ & Hother).
  split.
  - rewrite Hrun. reflexivity.
  - destruct (Hother (raising TypeError) TypeError eq_refl eq_refl) as [Hrun' _].
    rewrite Hrun'. reflexivity.
Defined.

(** C2 as stated fails: a timeout and a status 500 are answered with one and
    the same string. *)
Lemma timeout_and_status_500_same_message :
  is_RequestException timeout_error = true
  /\ status_code server_error <> 200%Z
  /\ result (get_ai_response [] (raising timeout_error)
               (Webscout.sanitize_stream Json.loads) (u "hi"))
     = result (get_ai_response [] (responding server_error)
                 (Webscout.sanitize_stream Json.loads) (u "hi")).
Proof.
  split; [reflexivity|]. split; [simpl; lia|]. reflexivity.
Qed.

(** C9: whatever the user wrote, whatever [requests.post] does (any status,
    any exception) and whatever the stream then yields (any fragments, an
    exception at any point), [get_ai_response] does not raise: it returns a
    string, which is one of the two fixed apologies, the placeholder, or the
    trimmed text accumulated by the loop. *)
Theorem get_ai_response_never_raises
    (environ : environment) (requests_post : PostCall -> outcome Response)
    (sanitize_stream : stream_sanitizer) (user_message : str) :
  exists s : str,
    result (get_ai_response environ requests_post sanitize_stream user_message)
    = Return s
    /\ (s = u "Sorry, I'm having trouble connecting to the AI service."
        \/ s = u "Sorry, something went wrong while processing your request."
        \/ s = u "I couldn't generate a response."
        \/ exists (response : Response) (full_response : str),
             requests_post (post_call environ user_message) = Return response
             /\ status_code response = 200%Z
             /\ result (stream_loop sanitize_stream (iter_lines response) [])
                = Return full_response
             /\ full_response <> []
             /\ s = Str.strip full_response).
Proof.
  destruct (requests_post (post_call environ user_message)) as [response|e] eqn:H.
  - destruct (Z.eq_dec (status_code response) 200) as [Hs|Hs].
    + rewrite (get_ai_response_ok _ _ _ _ _ H Hs).
      destruct (result (stream_loop sanitize_stream (iter_lines response) []))
        as [full|e] eqn:Hloop.
      * destruct full as [|c full].
        -- exists no_response. split; [reflexivity|]. now right; right; left.
        -- exists (Str.strip (c :: full)). split; [reflexivity|].
           right; right; right. exists response, (c :: full).
           repeat split; try assumption. discriminate.
      * rewrite except_handlers_eq.
        destruct (is_RequestException e).
        -- exists connection_trouble. split; [reflexivity|]. now left.
        -- exists something_wrong. split; [reflexivity|]. now right; left.
    + rewrite (get_ai_response_bad_status _ _ _ _ _ H Hs).
      exists connection_trouble. split; [reflexivity|]. now left.
  - rewrite (get_ai_response_post_raises _ _ _ _ _ H), except_handlers_eq.
    destruct (is_RequestException e).
    + exists connection_trouble. split; [reflexivity|]. now left.
    + exists something_wrong. split; [reflexivity|]. now right; left.
Qed.

(** ** The extraction function and the body of the loop *)

(** C10: [extract_content] returns on every parsed value, never raising; on
    each shape that lacks the field (not an object, [choices] missing, not a
    list or empty, first choice not an object or without [delta], [delta] not
    an object or without [content]) it returns [None]; and a chunk whose
    content is the empty string leaves the accumulator as it was. *)
Theorem extract_content_total (chunk : pyval) :
  (exists v : pyval, extract_content chunk = ret v)
  /\ (lacks_content chunk -> extract_content chunk = ret PNone)
  /\ (delta_content chunk = Some (PStr []) ->
      forall full_response : str,
        (content <- extract_content chunk ;; accumulate content full_response)
        = ret full_response).
Proof.
  rewrite extract_content_spec. split; [|split].
  - eexists; reflexivity.
  - intros H. unfold content_or_None. now rewrite (lacks_content_None _ H).
  - intros H full. unfold content_or_None. rewrite H, bind_ret_l. reflexivity.
Qed.

Lemma extract_content_empty_choices :
  lacks_content (PDict [(u "choices", PList [])])
  /\ extract_content (PDict [(u "choices", PList [])]) = ret PNone.
Proof.
  assert (H : lacks_content (PDict [(u "choices", PList [])]))
    by (apply empty_choices; reflexivity).
  split; [exact H|].
  exact (proj1 (proj2 (extract_content_total (PDict [(u "choices", PList [])]))) H).
Defined.

(** ** Start-up *)

(** C8, as the code has it: when [TELEGRAM_TOKEN] is absent from the
    environment, or present with the empty string as its value, [main] logs
    the error and returns, having built and run nothing; when it is present
    and not empty, [main] builds the application with it, registers the
    handlers and runs the polling loop. *)
Theorem main_token_guard (environ : environment) :
  (os_getenv environ (u "TELEGRAM_TOKEN") = None
   \/ os_getenv environ (u "TELEGRAM_TOKEN") = Some [] ->
   main environ = ([Log ERROR TokenNotSet], Return tt))
  /\ (forall token : str,
        os_getenv environ (u "TELEGRAM_TOKEN") = Some token -> token <> [] ->
        main environ = (startup_events token, Return tt)).
Proof.
  unfold main, TELEGRAM_TOKEN. split.
  - intros [H|H]; rewrite H; reflexivity.
  - intros token H Hne. rewrite H.
    destruct token as [|c token]; [congruence|reflexivity].
Qed.

Lemma main_with_token_run :
  os_getenv token_environ (u "TELEGRAM_TOKEN") = Some (u "123:abc")
  /\ u "123:abc" <> []
  /\ main token_environ = (startup_events (u "123:abc"), Return tt).
Proof.
  split; [reflexivity|]. split; [discriminate|].
  apply (proj2 (main_token_guard token_environ) (u "123:abc"));
    [reflexivity | discriminate].
Defined.

(** C8 as stated fails: with the variable present and empty, [main] stops
    at the guard as if it were absent. *)
Lemma main_empty_token_stops :
  os_getenv empty_token_environ (u "TELEGRAM_TOKEN") = Some (u "")
  /\ main empty_token_environ = ([Log ERROR TokenNotSet], Return tt)
  /\ ~ In RunPolling (events (main empty_token_environ)).
Proof.
  split; [reflexivity|]. split; [reflexivity|].
  simpl. intros [F|[]]; discriminate F.
Qed.

(** ** The stream reducer on the lines of the stream *)

Section Reducer.

Variable json_loads : str -> option pyval.

#[local] Abbreviation sanitize :=
  (fun data => Webscout.sanitize_stream json_loads data
                 (u "data:") [u "[DONE]"; u ""] extract_content).

(** A line that [sanitize_line] drops can be taken out of the stream. *)
Lemma sanitize_stream_skip (pre : list str) (line : str) (rest : generator str) :
  Webscout.sanitize_line json_loads (u "data:") [u "[DONE]"; u ""] line = None ->
  sanitize (yield_from pre (Yield line rest)) = sanitize (yield_from pre rest).
Proof.
  intros H. induction pre as [|l pre IH]; simpl.
  - now rewrite H.
  - now rewrite IH.
Qed.

(** The model ends the sequence where the line iterator raises. *)
Lemma sanitize_stream_drop (lines : list str) (e : exn) :
  sanitize (yield_from lines (Raises e)) = sanitize (yield_from lines StopIteration).
Proof.
  induction lines as [|l lines IH]; simpl; [reflexivity|].
  now rewrite IH.
Qed.

(** A content line passes the sentinels (its remainder starts with a
    space), is parsed, and the extraction function finds its delta. *)
Lemma sanitize_content_line (line delta : str) :
  content_line json_loads line delta ->
  exists chunk,
    Webscout.sanitize_line json_loads (u "data:") [u "[DONE]"; u ""] line = Some chunk
    /\ extract_content chunk = ret (PStr delta).
Proof.
  intros (body & chunk & -> & Hload & Hdelta). exists chunk. split.
  - unfold Webscout.sanitize_line, Webscout.strip_intro.
    change (u "data: " ++ body) with (u "data:" ++ ch " " :: body).
    rewrite remove_prefix_app. exact Hload.
  - rewrite extract_content_spec. unfold content_or_None. now rewrite Hdelta.
Qed.

Lemma sanitize_content_lines (lines deltas : list str) (g : generator str) :
  Forall2 (content_line json_loads) lines deltas ->
  sanitize (yield_from lines g) = yield_from (map PStr deltas) (sanitize g).
Proof.
  induction 1 as [|line delta lines deltas Hline _ IH]; [reflexivity|].
  destruct (sanitize_content_line _ _ Hline) as (chunk & Hs & Hx).
  simpl. rewrite Hs, Hx, IH. reflexivity.
Qed.

(** The loop over content lines accumulates the deltas in stream order. *)
Lemma stream_loop_content_lines (lines deltas : list str) :
  Forall2 (content_line json_loads) lines deltas ->
  stream_loop (Webscout.sanitize_stream json_loads)
    (yield_from lines StopIteration) []
  = ret (Str.join deltas).
Proof.
  intros H. unfold stream_loop.
  rewrite (sanitize_content_lines _ _ StopIteration H), for_each_strings.
  reflexivity.
Qed.

(** Two responses that differ only in lines the sanitizer makes nothing of
    get the same run. *)
Lemma get_ai_response_same_fragments
    (environ : environment) (user_message : str) (r1 r2 : Response) :
  status_code r1 = status_code r2 -> text r1 = text r2 ->
  sanitize (iter_lines r1) = sanitize (iter_lines r2) ->
  get_ai_response environ (responding r1)
    (Webscout.sanitize_stream json_loads) user_message
  = get_ai_response environ (responding r2)
      (Webscout.sanitize_stream json_loads) user_message.
Proof.
  intros Hs Ht Hl.
  destruct (Z.eq_dec (status_code r1) 200) as [H200|H200].
  - rewrite (get_ai_response_ok environ (responding r1) _ user_message r1 eq_refl H200).
    rewrite Hs in H200.
    rewrite (get_ai_response_ok environ (responding r2) _ user_message r2 eq_refl H200).
    unfold stream_loop. now rewrite Hl.
  - rewrite (get_ai_response_bad_status environ (responding r1) _ user_message r1
               eq_refl H200).
    rewrite Hs in H200.
    rewrite (get_ai_response_bad_status environ (responding r2) _ user_message r2
               eq_refl H200).
    now rewrite Hs, Ht.
Qed.

End Reducer.

Lemma strip_nil : Str.strip [] = [].
Proof. reflexivity. Qed.

(** C1, as the code has it: when every line is a well-formed [data: {...}]
    line whose chunk holds a string delta, the reducer returns the deltas
    concatenated in stream order and trimmed, provided something other than
    whitespace is left of them; when all the deltas are empty it returns the
    placeholder.  On the lines of the spec's example the output is "Hello". *)
Theorem content_lines_are_concatenated :
  (forall (json_loads : str -> option pyval) (environ : environment)
          (user_message : str) (lines deltas : list str),
      Forall2 (content_line json_loads) lines deltas ->
      (Str.strip (Str.join deltas) <> [] ->
       result (get_ai_response environ (responding (streaming lines StopIteration))
                 (Webscout.sanitize_stream json_loads) user_message)
       = Return (Str.strip (Str.join deltas)))
      /\ (Str.join deltas = [] ->
          result (get_ai_response environ (responding (streaming lines StopIteration))
                    (Webscout.sanitize_stream json_loads) user_message)
          = Return (u "I couldn't generate a response.")))
  /\ result (get_ai_response [] (responding (streaming example_lines StopIteration))
               (Webscout.sanitize_stream Json.loads) (u "hi"))
     = Return (u "Hello").
Proof.
  split; [|vm_compute; reflexivity].
  intros json_loads environ user_message lines deltas H.
  rewrite (get_ai_response_ok environ _ _ user_message
             (streaming lines StopIteration) eq_refl eq_refl).
  simpl iter_lines. rewrite (stream_loop_content_lines json_loads _ _ H).
  simpl result. unfold final_text. split.
  - intros Hne. destruct (Str.join deltas) as [|c rest]; [now rewrite strip_nil in Hne|].
    reflexivity.
  - intros ->. reflexivity.
Qed.

Lemma content_line_intro (text : str) (chunk : pyval) (delta : str) :
  Json.loads (ch " " :: text) = Some chunk ->
  delta_content chunk = Some (PStr delta) ->
  content_line Json.loads (u "data: " ++ text) delta.
Proof. intros H1 H2. exists text, chunk. auto. Qed.

Lemma hello_line_run :
  Forall2 (content_line Json.loads) [hello_delta_line] [u "Hello "]
  /\ Str.strip (Str.join [u "Hello "]) <> []
  /\ result (get_ai_response [] (responding (streaming [hello_delta_line] StopIteration))
               (Webscout.sanitize_stream Json.loads) (u "hi"))
     = Return (u "Hello").
Proof.
  assert (H : Forall2 (content_line Json.loads) [hello_delta_line] [u "Hello "]).
  { constructor; [|constructor].
    apply (content_line_intro (dq "{'choices':[{'delta':{'content':'Hello '}}]}")
             (PDict [(u "choices",
                      PList [PDict [(u "delta", PDict [(u "content", PStr (u "Hello "))])]])]));
      vm_compute; reflexivity. }
  split; [exact H|]. split; [vm_compute; discriminate|].
  exact (proj1 (proj1 content_lines_are_concatenated Json.loads [] (u "hi")
                  [hello_delta_line] [u "Hello "] H)
           ltac:(vm_compute; discriminate)).
Defined.

(** C1 as stated fails: a well-formed line whose delta is the empty string
    gives the placeholder, not the trimmed concatenation, which is empty. *)
Lemma empty_delta_gives_placeholder :
  Forall2 (content_line Json.loads) [empty_delta_line] [u ""]
  /\ Str.strip (Str.join [u ""]) = u ""
  /\ result (get_ai_response [] (responding (streaming [empty_delta_line] StopIteration))
               (Webscout.sanitize_stream Json.loads) (u "hi"))
     = Return (u "I couldn't generate a response.")
  /\ u "I couldn't generate a response." <> u "".
Proof.
  split.
  { constructor; [|constructor].
    apply (content_line_intro (dq "{'choices':[{'delta':{'content':''}}]}")
             (PDict [(u "choices",
                      PList [PDict [(u "delta", PDict [(u "content", PStr (u ""))])]])]));
      vm_compute; reflexivity. }
  split; [reflexivity|]. split; [vm_compute; reflexivity|discriminate].
Qed.

(** C4 at a whitespace-only answer: the loop appends the blank fragment, the
    test of line 73 sees a non-empty accumulator, and the trimmed text, the
    empty string, is returned where the placeholder was due. *)
Theorem blank_text_is_returned_empty :
  accumulate (PStr (u " ")) (u "") = ret (u " ")
  /\ final_text (u " ") = u ""
  /\ result (get_ai_response [] (responding (streaming [blank_delta_line] StopIteration))
               (Webscout.sanitize_stream Json.loads) (u "hi"))
     = Return (u "")
  /\ u "" <> u "I couldn't generate a response.".
Proof.
  split; [reflexivity|]. split; [reflexivity|].
  split; [vm_compute; reflexivity|discriminate].
Qed.

(** C6: a line whose payload [json.loads] cannot decode contributes nothing:
    the run on a stream is the run on the stream without that line, whatever
    comes before and after it, the way the stream ends included. *)
Theorem unparseable_line_is_skipped
    (json_loads : str -> option pyval) (environ : environment) (user_message : str)
    (status : Z) (body : text_read) (pre : list str) (line : str)
    (rest : generator str) :
  json_loads (Webscout.strip_intro (u "data:") line) = None ->
  get_ai_response environ
    (responding {| status_code := status; text := body;
                   iter_lines := yield_from pre (Yield line rest) |})
    (Webscout.sanitize_stream json_loads) user_message
  = get_ai_response environ
      (responding {| status_code := status; text := body;
                     iter_lines := yield_from pre rest |})
      (Webscout.sanitize_stream json_loads) user_message.
Proof.
  intros H. apply get_ai_response_same_fragments; try reflexivity.
  simpl iter_lines. apply sanitize_stream_skip.
  unfold Webscout.sanitize_line. rewrite H.
  now destruct (Str.mem _ _).
Qed.

Lemma truncated_json_line_run :
  Json.loads (Webscout.strip_intro (u "data:") (dq "data: {'choices':[{'delta'")) = None
  /\ result (get_ai_response [] (responding (streaming
               [ dq "data: {'choices':[{'delta':{'content':'Hel'}}]}";
                 dq "data: {'choices':[{'delta'";
                 dq "data: {'choices':[{'delta':{'content':'lo'}}]}" ] StopIteration))
               (Webscout.sanitize_stream Json.loads) (u "hi"))
     = Return (u "Hello").
Proof.
  split; [vm_compute; reflexivity|].
  transitivity
    (result (get_ai_response [] (responding (streaming
               [ dq "data: {'choices':[{'delta':{'content':'Hel'}}]}";
                 dq "data: {'choices':[{'delta':{'content':'lo'}}]}" ] StopIteration))
               (Webscout.sanitize_stream Json.loads) (u "hi")));
    [|vm_compute; reflexivity].
  apply (f_equal result).
  exact (unparseable_line_is_skipped Json.loads [] (u "hi") 200 (Text [])
           [dq "data: {'choices':[{'delta':{'content':'Hel'}}]}"]
           (dq "data: {'choices':[{'delta'")
           (yield_from [dq "data: {'choices':[{'delta':{'content':'lo'}}]}"] StopIteration)
           ltac:(vm_compute; reflexivity)).
Defined.

(** C7: a line equal to the sentinel [[DONE]] or to the empty string
    contributes nothing, wherever it stands: the run on a stream is the run on
    the stream without that line. *)
Theorem sentinel_line_is_skipped
    (json_loads : str -> option pyval) (environ : environment) (user_message : str)
    (status : Z) (body : text_read) (pre : list str) (rest : generator str) :
  get_ai_response environ
    (responding {| status_code := status; text := body;
                   iter_lines := yield_from pre (Yield (u "[DONE]") rest) |})
    (Webscout.sanitize_stream json_loads) user_message
  = get_ai_response environ
      (responding {| status_code := status; text := body;
                     iter_lines := yield_from pre rest |})
      (Webscout.sanitize_stream json_loads) user_message
  /\ get_ai_response environ
       (responding {| status_code := status; text := body;
                      iter_lines := yield_from pre (Yield (u "") rest) |})
       (Webscout.sanitize_stream json_loads) user_message
     = get_ai_response environ
         (responding {| status_code := status; text := body;
                        iter_lines := yield_from pre rest |})
         (Webscout.sanitize_stream json_loads) user_message.
Proof.
  split; apply get_ai_response_same_fragments; try reflexivity;
    simpl iter_lines; apply sanitize_stream_skip; reflexivity.
Qed.

(** C3: when the line iterator raises after some lines, the run is the run
    on those lines with the stream closed after them: it does not raise, and
    when the loop had accumulated a non-empty text over those lines, that
    text is returned, trimmed as every answer is. *)
Theorem dropped_stream_returns_accumulated_text
    (json_loads : str -> option pyval) (environ : environment) (user_message : str)
    (lines : list str) (e : exn) (full_response : str) :
  result (stream_loop (Webscout.sanitize_stream json_loads)
            (yield_from lines StopIteration) [])
  = Return full_response ->
  full_response <> [] ->
  get_ai_response environ (responding (streaming lines (Raises e)))
    (Webscout.sanitize_stream json_loads) user_message
  = get_ai_response environ (responding (streaming lines StopIteration))
      (Webscout.sanitize_stream json_loads) user_message
  /\ result (get_ai_response environ (responding (streaming lines (Raises e)))
               (Webscout.sanitize_stream json_loads) user_message)
     = Return (Str.strip full_response).
Proof.
  intros Hloop Hne.
  assert (Hsame :
    get_ai_response environ (responding (streaming lines (Raises e)))
      (Webscout.sanitize_stream json_loads) user_message
    = get_ai_response environ (responding (streaming lines StopIteration))
        (Webscout.sanitize_stream json_loads) user_message).
  { apply get_ai_response_same_fragments; try reflexivity.
    simpl iter_lines. apply sanitize_stream_drop. }
  split; [exact Hsame|]. rewrite Hsame.
  rewrite (get_ai_response_ok environ _ _ user_message
             (streaming lines StopIteration) eq_refl eq_refl).
  simpl iter_lines. rewrite Hloop. simpl. unfold final_text.
  destruct full_response; [congruence|reflexivity].
Qed.

Lemma dropped_after_hello_run :
  result (stream_loop (Webscout.sanitize_stream Json.loads)
            (yield_from [hello_delta_line] StopIteration) [])
  = Return (u "Hello ")
  /\ u "Hello " <> []
  /\ result (get_ai_response []
               (responding (streaming [hello_delta_line] (Raises timeout_error)))
               (Webscout.sanitize_stream Json.loads) (u "hi"))
     = Return (u "Hello").
Proof.
  split; [vm_compute; reflexivity|]. split; [discriminate|].
  exact (proj2 (dropped_stream_returns_accumulated_text Json.loads [] (u "hi")
                  [hello_delta_line] timeout_error (u "Hello ")
                  ltac:(vm_compute; reflexivity) ltac:(discriminate))).
Defined.

(** * Further properties of the module *)

(** ** Trimming *)

Lemma lstrip_keeps (c : char) (s : str) :
  Str.isspace c = false -> Str.lstrip (c :: s) = c :: s.
Proof. intros H. simpl. now rewrite H. Qed.

Lemma lstrip_idem (s : str) : Str.lstrip (Str.lstrip s) = Str.lstrip s.
Proof.
  induction s as [|c s IH]; [reflexivity|].
  simpl. destruct (Str.isspace c) eqn:Hc; [exact IH|].
  now apply lstrip_keeps.
Qed.

Lemma lstrip_nil_iff (s : str) : Str.lstrip s = [] <-> blank s.
Proof.
  unfold blank. induction s as [|c s IH]; simpl.
  - split; [constructor|reflexivity].
  - destruct (Str.isspace c) eqn:Hc.
    + rewrite IH. split; [now constructor|now inversion 1].
    + split; [discriminate|]. inversion 1; congruence.
Qed.

(** Stripping on the left a string extended by one character on the right. *)
Lemma lstrip_snoc (s : str) (c : char) :
  Str.lstrip (s ++ [c]) =
  match Str.lstrip s with
  | [] => if Str.isspace c then [] else [c]
  | r => r ++ [c]
  end.
Proof.
  induction s as [|x s IH]; simpl; [reflexivity|].
  destruct (Str.isspace x); [exact IH|reflexivity].
Qed.

(** [rstrip], read from the left. *)
Lemma rstrip_cons (c : char) (s : str) :
  Str.rstrip (c :: s) =
  match Str.rstrip s with
  | [] => if Str.isspace c then [] else [c]
  | r => c :: r
  end.
Proof.
  unfold Str.rstrip. simpl rev. rewrite lstrip_snoc.
  destruct (Str.lstrip (rev s)) as [|x r]; simpl.
  - destruct (Str.isspace c); reflexivity.
  - rewrite rev_app_distr. simpl.
    destruct (rev r ++ [x]) eqn:E; [now destruct (rev r)|reflexivity].
Qed.

Lemma rstrip_idem (s : str) : Str.rstrip (Str.rstrip s) = Str.rstrip s.
Proof. unfold Str.rstrip. now rewrite rev_involutive, lstrip_idem. Qed.

Lemma rstrip_nil_iff (s : str) : Str.rstrip s = [] <-> blank s.
Proof.
  unfold blank. induction s as [|c s IH]; [split; [constructor|reflexivity]|].
  rewrite rstrip_cons. destruct (Str.rstrip s) as [|x r] eqn:E.
  - destruct (Str.isspace c) eqn:Hc.
    + split; [intros _; constructor; [exact Hc|now apply IH]|reflexivity].
    + split; [discriminate|]. inversion 1; congruence.
  - split; [discriminate|]. inversion 1 as [|? ? _ Hs]; subst.
    apply IH in Hs. discriminate Hs.
Qed.

Lemma lstrip_rstrip (s : str) :
  Str.lstrip (Str.rstrip s) = Str.rstrip (Str.lstrip s).
Proof.
  induction s as [|c s IH]; [reflexivity|].
  rewrite rstrip_cons. simpl Str.lstrip at 2.
  destruct (Str.isspace c) eqn:Hc.
  - rewrite <- IH. destruct (Str.rstrip s) as [|x r]; [reflexivity|].
    simpl. now rewrite Hc.
  - rewrite rstrip_cons.
    destruct (Str.rstrip s) as [|x r]; rewrite ?Hc; now apply lstrip_keeps.
Qed.

Lemma strip_idem (s : str) : Str.strip (Str.strip s) = Str.strip s.
Proof.
  unfold Str.strip.
  now rewrite lstrip_rstrip, lstrip_idem, rstrip_idem.
Qed.

Lemma strip_nil_iff (s : str) : Str.strip s = [] <-> blank s.
Proof.
  unfold Str.strip. rewrite rstrip_nil_iff, <- !lstrip_nil_iff.
  now rewrite lstrip_idem.
Qed.

(** ** The runs of [get_ai_response] *)

(** Every run is one of four: the post raised, the status was not 200, the
    loop ended normally, or an exception left the loop. *)
Lemma get_ai_response_cases
    (environ : environment) (requests_post : PostCall -> outcome Response)
    (sanitize_stream : stream_sanitizer) (user_message : str) :
  (exists e,
     requests_post (post_call environ user_message) = Raise e
     /\ get_ai_response environ requests_post sanitize_stream user_message
        = (RequestsPost (post_call environ user_message) :: events (except_handlers e),
           result (except_handlers e)))
  \/ (exists response,
        requests_post (post_call environ user_message) = Return response
        /\ status_code response <> 200%Z
        /\ exists msg,
             get_ai_response environ requests_post sanitize_stream user_message
             = ([RequestsPost (post_call environ user_message); ReadText;
                 Log ERROR msg],
                Return connection_trouble))
  \/ (exists response full_response,
        requests_post (post_call environ user_message) = Return response
        /\ status_code response = 200%Z
        /\ result (stream_loop sanitize_stream (iter_lines response) [])
           = Return full_response
        /\ get_ai_response environ requests_post sanitize_stream user_message
           = ([RequestsPost (post_call environ user_message); IterLines],
              Return (final_text full_response)))
  \/ (exists response e,
        requests_post (post_call environ user_message) = Return response
        /\ status_code response = 200%Z
        /\ result (stream_loop sanitize_stream (iter_lines response) []) = Raise e
        /\ get_ai_response environ requests_post sanitize_stream user_message
           = (RequestsPost (post_call environ user_message) :: IterLines
                :: events (except_handlers e),
              result (except_handlers e))).
Proof.
  destruct (requests_post (post_call environ user_message)) as [response|e] eqn:H.
  - destruct (Z.eq_dec (status_code response) 200) as [Hs|Hs].
    + pose proof (get_ai_response_ok _ _ sanitize_stream _ _ H Hs) as Hrun.
      destruct (result (stream_loop sanitize_stream (iter_lines response) []))
        as [full|e] eqn:Hloop.
      * right; right; left. exists response, full. auto.
      * right; right; right. exists response, e. auto.
    + right; left. exists response.
      split; [reflexivity|]. split; [exact Hs|]. eexists.
      exact (get_ai_response_bad_status _ _ sanitize_stream _ _ H Hs).
  - left. exists e. split; [reflexivity|].
    exact (get_ai_response_post_raises _ _ sanitize_stream _ _ H).
Qed.

Lemma except_handlers_result (e : exn) :
  result (except_handlers e)
  = Return (if is_RequestException e then connection_trouble else something_wrong).
Proof. rewrite except_handlers_eq. now destruct (is_RequestException e). Qed.

(** The loop on a generator given by its fragments. *)
Lemma stream_loop_eq (sanitize_stream : stream_sanitizer) (lines : generator str)
    (g : generator pyval) (acc : str) :
  sanitize_stream lines (u "data:") [u "[DONE]"; u ""] extract_content = g ->
  stream_loop sanitize_stream lines acc = for_each g accumulate acc.
Proof. intros <-. reflexivity. Qed.

Lemma for_each_falsy (pre : list pyval) (v : pyval) (rest : generator pyval)
    (acc : str) :
  truthy v = false ->
  for_each (yield_from pre (Yield v rest)) accumulate acc
  = for_each (yield_from pre rest) accumulate acc.
Proof.
  intros Hv. revert acc. induction pre as [|x pre IH]; intros acc; simpl.
  - unfold accumulate at 1. rewrite Hv. now rewrite bind_ret_l.
  - unfold bind. destruct (accumulate x acc) as [evs [acc'|e]]; simpl;
      [now rewrite IH|reflexivity].
Qed.

(** X1: an exception that leaves the stream after string fragments were
    accumulated is answered by the handlers of lines 75-80: the text
    accumulated so far is dropped, the error is logged, and the sentence
    returned is the connection one for a request exception and the generic
    one otherwise. *)
Theorem exception_in_stream_discards_text
    (environ : environment) (requests_post : PostCall -> outcome Response)
    (sanitize_stream : stream_sanitizer) (user_message : str)
    (response : Response) (deltas : list str) (e : exn) :
  requests_post (post_call environ user_message) = Return response ->
  status_code response = 200%Z ->
  sanitize_stream (iter_lines response) (u "data:") [u "[DONE]"; u ""] extract_content
  = yield_from (map PStr deltas) (Raises e) ->
  get_ai_response environ requests_post sanitize_stream user_message
  = ([RequestsPost (post_call environ user_message); IterLines;
      Log ERROR (if is_RequestException e then RequestError e else UnexpectedError e)],
     Return (if is_RequestException e then connection_trouble else something_wrong)).
Proof.
  intros H Hs Hg.
  rewrite (get_ai_response_ok _ _ _ _ _ H Hs), (stream_loop_eq _ _ _ _ Hg).
  rewrite for_each_strings. simpl. rewrite except_handlers_eq.
  destruct (is_RequestException e); reflexivity.
Qed.

Lemma drop_after_hello_discarded :
  responding ok_response (post_call [] (u "hi")) = Return ok_response
  /\ status_code ok_response = 200%Z
  /\ result (get_ai_response [] (responding ok_response)
               (yielding [PStr (u "Hello")] (Raises timeout_error)) (u "hi"))
     = Return connection_trouble.
Proof.
  split; [reflexivity|]. split; [reflexivity|].
  rewrite (exception_in_stream_discards_text [] (responding ok_response)
             (yielding [PStr (u "Hello")] (Raises timeout_error)) (u "hi")
             ok_response [u "Hello"] timeout_error eq_refl eq_refl eq_refl).
  reflexivity.
Defined.

(** X2: a fragment that is true without being a string (a number other than
    zero, [True], a non-empty list or object) makes [full_response += content]
    raise a [TypeError]: the run ends with the generic apology, whatever was
    accumulated before and whatever would have followed. *)
Theorem non_string_fragment_gives_generic_apology
    (environ : environment) (requests_post : PostCall -> outcome Response)
    (sanitize_stream : stream_sanitizer) (user_message : str)
    (response : Response) (deltas : list str) (v : pyval) (rest : generator pyval) :
  requests_post (post_call environ user_message) = Return response ->
  status_code response = 200%Z ->
  sanitize_stream (iter_lines response) (u "data:") [u "[DONE]"; u ""] extract_content
  = yield_from (map PStr deltas) (Yield v rest) ->
  truthy v = true ->
  (forall s, v <> PStr s) ->
  get_ai_response environ requests_post sanitize_stream user_message
  = ([RequestsPost (post_call environ user_message); IterLines;
      Log ERROR (UnexpectedError TypeError)],
     Return (u "Sorry, something went wrong while processing your request.")).
Proof.
  intros H Hs Hg Hv Hns.
  rewrite (get_ai_response_ok _ _ _ _ _ H Hs), (stream_loop_eq _ _ _ _ Hg).
  rewrite for_each_strings. simpl. unfold accumulate at 1. rewrite Hv.
  destruct v; try reflexivity. now destruct (Hns s).
Qed.

Lemma number_fragment_run :
  responding ok_response (post_call [] (u "hi")) = Return ok_response
  /\ status_code ok_response = 200%Z
  /\ truthy (PInt 5) = true
  /\ result (get_ai_response [] (responding ok_response)
               (yielding [PStr (u "Hello"); PInt 5; PStr (u "!")] StopIteration)
               (u "hi"))
     = Return (u "Sorry, something went wrong while processing your request.").
Proof.
  split; [reflexivity|]. split; [reflexivity|]. split; [reflexivity|].
  rewrite (non_string_fragment_gives_generic_apology [] (responding ok_response)
             (yielding [PStr (u "Hello"); PInt 5; PStr (u "!")] StopIteration)
             (u "hi") ok_response [u "Hello"] (PInt 5)
             (Yield (PStr (u "!")) StopIteration)
             eq_refl eq_refl eq_refl eq_refl ltac:(discriminate)).
  reflexivity.
Defined.

(** X3: a fragment that is false ([None], the empty string, zero, [False],
    an empty list or object) is passed over by [if content:]: two runs whose
    fragments differ by one such value, anywhere in the sequence, are the
    same run. *)
Theorem falsy_fragment_is_ignored
    (environ : environment) (requests_post : PostCall -> outcome Response)
    (sanitizer sanitizer' : stream_sanitizer) (user_message : str)
    (response : Response) (pre : list pyval) (v : pyval) (rest : generator pyval) :
  requests_post (post_call environ user_message) = Return response ->
  sanitizer (iter_lines response) (u "data:") [u "[DONE]"; u ""] extract_content
  = yield_from pre (Yield v rest) ->
  sanitizer' (iter_lines response) (u "data:") [u "[DONE]"; u ""] extract_content
  = yield_from pre rest ->
  truthy v = false ->
  get_ai_response environ requests_post sanitizer user_message
  = get_ai_response environ requests_post sanitizer' user_message.
Proof.
  intros H Hg Hg' Hv.
  destruct (Z.eq_dec (status_code response) 200) as [Hs|Hs].
  - rewrite (get_ai_response_ok _ _ sanitizer _ _ H Hs).
    rewrite (get_ai_response_ok _ _ sanitizer' _ _ H Hs).
    rewrite (stream_loop_eq _ _ _ _ Hg), (stream_loop_eq _ _ _ _ Hg').
    now rewrite (for_each_falsy _ _ _ _ Hv).
  - rewrite (get_ai_response_bad_status _ _ sanitizer _ _ H Hs).
    now rewrite (get_ai_response_bad_status _ _ sanitizer' _ _ H Hs).
Qed.

Lemma zero_fragment_run :
  truthy (PInt 0) = false
  /\ get_ai_response [] (responding ok_response)
       (yielding [PStr (u "Hel"); PInt 0; PStr (u "lo")] StopIteration) (u "hi")
     = get_ai_response [] (responding ok_response)
         (yielding [PStr (u "Hel"); PStr (u "lo")] StopIteration) (u "hi").
Proof.
  split; [reflexivity|].
  exact (falsy_fragment_is_ignored [] (responding ok_response)
           (yielding [PStr (u "Hel"); PInt 0; PStr (u "lo")] StopIteration)
           (yielding [PStr (u "Hel"); PStr (u "lo")] StopIteration)
           (u "hi") ok_response [PStr (u "Hel")] (PInt 0)
           (Yield (PStr (u "lo")) StopIteration)
           eq_refl eq_refl eq_refl eq_refl).
Defined.

(** X4: when the fragments are strings and the stream ends normally, the
    run makes one post, asks for the lines, logs nothing, and returns the
    fragments joined in the order they came, trimmed; with nothing to join it
    returns the placeholder. *)
Theorem string_fragments_are_joined_in_order
    (environ : environment) (requests_post : PostCall -> outcome Response)
    (sanitize_stream : stream_sanitizer) (user_message : str)
    (response : Response) (deltas : list str) :
  requests_post (post_call environ user_message) = Return response ->
  status_code response = 200%Z ->
  sanitize_stream (iter_lines response) (u "data:") [u "[DONE]"; u ""] extract_content
  = yield_from (map PStr deltas) StopIteration ->
  get_ai_response environ requests_post sanitize_stream user_message
  = ([RequestsPost (post_call environ user_message); IterLines],
     Return (match Str.join deltas with
             | [] => u "I couldn't generate a response."
             | _ :: _ => Str.strip (Str.join deltas)
             end)).
Proof.
  intros H Hs Hg.
  rewrite (get_ai_response_ok _ _ _ _ _ H Hs), (stream_loop_eq _ _ _ _ Hg).
  rewrite for_each_strings. simpl. unfold final_text.
  destruct (Str.join deltas); reflexivity.
Qed.

Lemma three_fragments_run :
  responding ok_response (post_call [] (u "hi")) = Return ok_response
  /\ status_code ok_response = 200%Z
  /\ result (get_ai_response [] (responding ok_response)
               (yielding [PStr (u " Hel"); PStr (u "lo, "); PStr (u "world ")]
                  StopIteration) (u "hi"))
     = Return (u "Hello, world").
Proof.
  split; [reflexivity|]. split; [reflexivity|].
  rewrite (string_fragments_are_joined_in_order [] (responding ok_response)
             (yielding [PStr (u " Hel"); PStr (u "lo, "); PStr (u "world ")]
                StopIteration) (u "hi") ok_response
             [u " Hel"; u "lo, "; u "world "] eq_refl eq_refl eq_refl).
  reflexivity.
Defined.

Lemma except_handlers_events (e : exn) :
  exists msg, events (except_handlers e) = [Log ERROR msg].
Proof.
  rewrite except_handlers_eq.
  destruct (is_RequestException e); eexists; reflexivity.
Qed.

(** X5: every run makes exactly one call to [requests.post], as its first
    event, with the call built from the user's message: there is no retry.
    Besides it a run logs at most one record, and only at level ERROR. *)
Theorem one_post_per_run
    (environ : environment) (requests_post : PostCall -> outcome Response)
    (sanitize_stream : stream_sanitizer) (user_message : str) :
  exists tail : list event,
    events (get_ai_response environ requests_post sanitize_stream user_message)
    = RequestsPost (post_call environ user_message) :: tail
    /\ filter is_post tail = []
    /\ (length (filter is_log tail) <= 1)%nat
    /\ filter is_log tail = filter is_error_log tail.
Proof.
  destruct (get_ai_response_cases environ requests_post sanitize_stream user_message)
    as [(e & _ & ->) | [(r & _ & _ & msg & ->) | [(r & full & _ & _ & _ & ->)
       | (r & e & _ & _ & _ & ->)]]]; simpl events.
  - destruct (except_handlers_events e) as [msg ->].
    eexists; split; [reflexivity|]. simpl. auto.
  - eexists; split; [reflexivity|]. simpl. auto.
  - eexists; split; [reflexivity|]. simpl. auto.
  - destruct (except_handlers_events e) as [msg ->].
    eexists; split; [reflexivity|]. simpl. auto.
Qed.

(** X6: whatever happens, the string returned has no whitespace at either
    end: trimming it again changes nothing. *)
Theorem reply_is_trimmed
    (environ : environment) (requests_post : PostCall -> outcome Response)
    (sanitize_stream : stream_sanitizer) (user_message : str) :
  exists s : str,
    result (get_ai_response environ requests_post sanitize_stream user_message)
    = Return s
    /\ Str.strip s = s.
Proof.
  destruct (get_ai_response_cases environ requests_post sanitize_stream user_message)
    as [(e & _ & ->) | [(r & _ & _ & msg & ->) | [(r & full & _ & _ & _ & ->)
       | (r & e & _ & _ & _ & ->)]]]; simpl result.
  - rewrite except_handlers_result. eexists; split; [reflexivity|].
    destruct (is_RequestException e); vm_compute; reflexivity.
  - eexists; split; [reflexivity|]. vm_compute; reflexivity.
  - eexists; split; [reflexivity|]. unfold final_text.
    destruct (truthy (PStr full)); [apply strip_idem|vm_compute; reflexivity].
  - rewrite except_handlers_result. eexists; split; [reflexivity|].
    destruct (is_RequestException e); vm_compute; reflexivity.
Qed.

(** X7: the string returned is empty in one situation only: the status was
    200, the loop ended normally, and what it accumulated is not empty but
    consists of whitespace alone. *)
Theorem empty_reply_iff_blank_text
    (environ : environment) (requests_post : PostCall -> outcome Response)
    (sanitize_stream : stream_sanitizer) (user_message : str) :
  result (get_ai_response environ requests_post sanitize_stream user_message)
  = Return []
  <-> exists (response : Response) (full_response : str),
        requests_post (post_call environ user_message) = Return response
        /\ status_code response = 200%Z
        /\ result (stream_loop sanitize_stream (iter_lines response) [])
           = Return full_response
        /\ full_response <> []
        /\ blank full_response.
Proof.
  split.
  - destruct (get_ai_response_cases environ requests_post sanitize_stream user_message)
      as [(e & _ & ->) | [(r & _ & _ & msg & ->) | [(r & full & H & Hs & Hloop & ->)
         | (r & e & _ & _ & _ & ->)]]]; simpl result.
    + rewrite except_handlers_result.
      destruct (is_RequestException e); discriminate.
    + discriminate.
    + unfold final_text. destruct full as [|c full]; [discriminate|].
      simpl truthy. intros [= Hstrip].
      exists r, (c :: full). repeat split; try assumption; [discriminate|].
      now apply strip_nil_iff.
    + rewrite except_handlers_result.
      destruct (is_RequestException e); discriminate.
  - intros (r & full & H & Hs & Hloop & Hne & Hblank).
    rewrite (get_ai_response_ok _ _ _ _ _ H Hs), Hloop. simpl.
    unfold final_text. destruct full as [|c full]; [congruence|].
    simpl truthy. f_equal. now apply strip_nil_iff.
Qed.

(** ** [extract_content] *)

(** X8: [extract_content] looks at the first choice only, and at nothing
    else of the chunk: the choices that follow and the other keys of the
    top-level object do not change what it returns. *)
Theorem extract_content_reads_first_choice_only
    (top : list (str * pyval)) (choice : pyval) (others : list pyval) :
  dict_get top (u "choices") = Some (PList (choice :: others)) ->
  extract_content (PDict top)
  = extract_content (PDict [(u "choices", PList [choice])]).
Proof.
  intros H. rewrite !extract_content_spec.
  unfold content_or_None, delta_content. rewrite H.
  change (dict_get [(u "choices", PList [choice])] (u "choices"))
    with (Some (PList [choice])).
  destruct choice; reflexivity.
Qed.

Lemma second_choice_is_not_read :
  dict_get [ (u "id", PStr (u "c1"));
             (u "choices",
              PList [ PDict [(u "delta", PDict [(u "content", PStr (u "a"))])];
                      PDict [(u "delta", PDict [(u "content", PStr (u "b"))])] ]) ]
    (u "choices")
  = Some (PList [ PDict [(u "delta", PDict [(u "content", PStr (u "a"))])];
                  PDict [(u "delta", PDict [(u "content", PStr (u "b"))])] ])
  /\ extract_content
       (PDict [ (u "id", PStr (u "c1"));
                (u "choices",
                 PList [ PDict [(u "delta", PDict [(u "content", PStr (u "a"))])];
                         PDict [(u "delta", PDict [(u "content", PStr (u "b"))])] ]) ])
     = ret (PStr (u "a")).
Proof.
  split; [reflexivity|].
  rewrite (extract_content_reads_first_choice_only
             [ (u "id", PStr (u "c1"));
               (u "choices",
                PList [ PDict [(u "delta", PDict [(u "content", PStr (u "a"))])];
                        PDict [(u "delta", PDict [(u "content", PStr (u "b"))])] ]) ]
             (PDict [(u "delta", PDict [(u "content", PStr (u "a"))])])
             [PDict [(u "delta", PDict [(u "content", PStr (u "b"))])]]
             eq_refl).
  reflexivity.
Defined.

(** ** Configuration *)

Lemma os_getenv_other (env : environment) (name other value : str) :
  Str.eqb other name = false ->
  os_getenv ((other, value) :: env) name = os_getenv env name.
Proof. intros H. simpl. now rewrite H. Qed.

(** X9: the two halves of the configuration do not touch: the call sent to
    the endpoint is the same whatever the bot token is set to, and [main]
    does the same whatever the three AI settings are set to. *)
Theorem settings_are_independent (env : environment) (value : str) :
  (forall user_message,
     post_call ((u "TELEGRAM_TOKEN", value) :: env) user_message
     = post_call env user_message)
  /\ main ((u "AI_BASE_URL", value) :: env) = main env
  /\ main ((u "AI_API_KEY", value) :: env) = main env
  /\ main ((u "AI_MODEL", value) :: env) = main env.
Proof.
  split; [|repeat split];
    try intros user_message;
    unfold post_call, chat_request, AIBot_headers, AI_BASE_URL, AI_API_KEY,
      AI_MODEL, main, TELEGRAM_TOKEN, os_getenv_default;
    rewrite ?os_getenv_other by reflexivity; reflexivity.
Qed.

(** X10: a setting that is present in the environment is used as it is, the
    empty string included: with [AI_BASE_URL] set to the empty string the
    call goes to the relative address "/chat/completions", and the default
    address is used only when the variable is absent. *)
Theorem base_url_setting (env : environment) (user_message : str) :
  (os_getenv env (u "AI_BASE_URL") = None ->
   url (post_call env user_message)
   = u "https://tender-taxes-sniff.loca.lt/v1/chat/completions")
  /\ (forall value,
        os_getenv env (u "AI_BASE_URL") = Some value ->
        url (post_call env user_message) = value ++ u "/chat/completions")
  /\ (os_getenv env (u "AI_BASE_URL") = Some [] ->
      url (post_call env user_message) = u "/chat/completions").
Proof.
  unfold post_call, AI_BASE_URL, os_getenv_default; simpl url.
  repeat split; [intros -> | intros value -> | intros ->]; reflexivity.
Qed.

Lemma empty_base_url_run :
  os_getenv [(u "AI_BASE_URL", u "")] (u "AI_BASE_URL") = Some []
  /\ url (post_call [(u "AI_BASE_URL", u "")] (u "hi")) = u "/chat/completions".
Proof.
  split; [reflexivity|].
  exact (proj2 (proj2 (base_url_setting [(u "AI_BASE_URL", u "")] (u "hi"))) eq_refl).
Defined.

(** ** The message handler *)

Lemma get_ai_response_returns
    (environ : environment) (requests_post : PostCall -> outcome Response)
    (sanitize_stream : stream_sanitizer) (user_message : str) :
  exists s : str,
    result (get_ai_response environ requests_post sanitize_stream user_message)
    = Return s.
Proof.
  destruct (get_ai_response_cases environ requests_post sanitize_stream user_message)
    as [(e & _ & ->) | [(r & _ & _ & msg & ->) | [(r & full & _ & _ & _ & ->)
       | (r & e & _ & _ & _ & ->)]]]; simpl result;
    rewrite ?except_handlers_result; eexists; reflexivity.
Qed.

Section HandleMessage.

Variable environ : environment.
Variable requests_post : PostCall -> outcome Response.
Variable sanitize_stream : stream_sanitizer.
Variable send_chat_action : Z -> str -> outcome unit.
Variable reply_text : Telegram.Message -> str -> outcome unit.

#[local] Abbreviation handle :=
  (Handlers.handle_message environ requests_post sanitize_stream
     send_chat_action reply_text).
#[local] Abbreviation ask :=
  (get_ai_response environ requests_post sanitize_stream).

(** The handler up to the reply: with the three attributes present and the
    typing action accepted, everything hinges on what [reply_text] does with
    the answer. *)
Lemma handle_message_to_reply (update : Telegram.Update) (msg : Telegram.Message)
    (user : Telegram.User) (chat : Telegram.Chat) (ai_response : str) :
  Telegram.message update = Some msg ->
  Telegram.effective_user update = Some user ->
  Telegram.effective_chat update = Some chat ->
  send_chat_action (Telegram.id chat) (u "typing") = Return tt ->
  result (ask (Telegram.text msg)) = Return ai_response ->
  handle update
  = match reply_text msg ai_response with
    | Return _ =>
        (HandlerLog INFO (ReceivedMessage (Telegram.first_name user) (Telegram.text msg))
           :: SendChatAction (Telegram.id chat) (u "typing")
           :: map OfBot (events (ask (Telegram.text msg)))
           ++ [ReplyText msg ai_response;
               HandlerLog INFO (SentResponse (Telegram.first_name user))],
         Return tt)
    | Raise e =>
        (HandlerLog INFO (ReceivedMessage (Telegram.first_name user) (Telegram.text msg))
           :: SendChatAction (Telegram.id chat) (u "typing")
           :: map OfBot (events (ask (Telegram.text msg)))
           ++ [ReplyText msg ai_response],
         Raise e)
    end.
Proof.
  intros Hm Hu Hc Hsend Hask.
  unfold Handlers.handle_message. rewrite Hm, Hu, Hc.
  unfold Handlers.hbind, Handlers.attr, Handlers.hret, Handlers.hemit,
    Handlers.do_send_chat_action, Handlers.do_reply_text, Handlers.of_bot.
  unfold result, events in *. simpl. rewrite Hsend. simpl. rewrite Hask. simpl.
  destruct (reply_text msg ai_response) as [[]|e]; simpl;
    rewrite ?app_nil_r; reflexivity.
Qed.

End HandleMessage.

(** X11: for an update with its message, user and chat, when Telegram accepts
    the two calls, the handler logs the message, sends the typing action
    before the bot posts anything, sends exactly one reply, whose text is what
    [get_ai_response] returned, logs that it did and returns normally,
    whatever the completion endpoint did. *)
Theorem handle_message_replies_once
    (environ : environment) (requests_post : PostCall -> outcome Response)
    (sanitize_stream : stream_sanitizer)
    (send_chat_action : Z -> str -> outcome unit)
    (reply_text : Telegram.Message -> str -> outcome unit)
    (update : Telegram.Update) (msg : Telegram.Message)
    (user : Telegram.User) (chat : Telegram.Chat) :
  Telegram.message update = Some msg ->
  Telegram.effective_user update = Some user ->
  Telegram.effective_chat update = Some chat ->
  send_chat_action (Telegram.id chat) (u "typing") = Return tt ->
  (forall s, reply_text msg s = Return tt) ->
  exists ai_response : str,
    result (get_ai_response environ requests_post sanitize_stream (Telegram.text msg))
    = Return ai_response
    /\ Handlers.handle_message environ requests_post sanitize_stream
         send_chat_action reply_text update
       = (HandlerLog INFO (ReceivedMessage (Telegram.first_name user) (Telegram.text msg))
            :: SendChatAction (Telegram.id chat) (u "typing")
            :: map OfBot
                 (events (get_ai_response environ requests_post sanitize_stream
                            (Telegram.text msg)))
            ++ [ReplyText msg ai_response;
                HandlerLog INFO (SentResponse (Telegram.first_name user))],
          Return tt).
Proof.
  intros Hm Hu Hc Hsend Hreply.
  destruct (get_ai_response_returns environ requests_post sanitize_stream
              (Telegram.text msg)) as [ai_response Hask].
  exists ai_response. split; [exact Hask|].
  rewrite (handle_message_to_reply _ _ _ _ _ _ _ _ _ _ Hm Hu Hc Hsend Hask).
  now rewrite Hreply.
Qed.

Lemma alice_gets_one_reply :
  (forall s, api_ok_reply {| Telegram.message_id := 7; Telegram.text := u "hi" |} s
             = Return tt)
  /\ filter is_reply
       (fst (Handlers.handle_message [] (responding ok_response)
               (yielding [PStr (u "Hello")] StopIteration)
               api_ok_action api_ok_reply alice_update))
     = [ReplyText {| Telegram.message_id := 7; Telegram.text := u "hi" |} (u "Hello")].
Proof.
  split; [reflexivity|].
  destruct (handle_message_replies_once [] (responding ok_response)
              (yielding [PStr (u "Hello")] StopIteration)
              api_ok_action api_ok_reply alice_update
              {| Telegram.message_id := 7; Telegram.text := u "hi" |}
              {| Telegram.first_name := u "Alice" |} {| Telegram.id := 42 |}
              eq_refl eq_refl eq_refl eq_refl (fun _ => eq_refl))
    as (ai_response & Hask & Hrun).
  rewrite Hrun. injection Hask as <-. reflexivity.
Defined.

(** X12: the handler has no [try] of its own: when [reply_text] raises on the
    answer, the exception leaves [handle_message], after the post was made and
    the reply attempted once, and the record "Sent response" is not
    logged. *)
Theorem handle_message_reply_failure_propagates
    (environ : environment) (requests_post : PostCall -> outcome Response)
    (sanitize_stream : stream_sanitizer)
    (send_chat_action : Z -> str -> outcome unit)
    (reply_text : Telegram.Message -> str -> outcome unit)
    (update : Telegram.Update) (msg : Telegram.Message)
    (user : Telegram.User) (chat : Telegram.Chat) (ai_response : str) (e : exn) :
  Telegram.message update = Some msg ->
  Telegram.effective_user update = Some user ->
  Telegram.effective_chat update = Some chat ->
  send_chat_action (Telegram.id chat) (u "typing") = Return tt ->
  result (get_ai_response environ requests_post sanitize_stream (Telegram.text msg))
  = Return ai_response ->
  reply_text msg ai_response = Raise e ->
  Handlers.handle_message environ requests_post sanitize_stream
    send_chat_action reply_text update
  = (HandlerLog INFO (ReceivedMessage (Telegram.first_name user) (Telegram.text msg))
       :: SendChatAction (Telegram.id chat) (u "typing")
       :: map OfBot
            (events (get_ai_response environ requests_post sanitize_stream
                       (Telegram.text msg)))
       ++ [ReplyText msg ai_response],
     Raise e).
Proof.
  intros Hm Hu Hc Hsend Hask Hreply.
  rewrite (handle_message_to_reply _ _ _ _ _ _ _ _ _ _ Hm Hu Hc Hsend Hask).
  now rewrite Hreply.
Qed.

Lemma refused_reply_run :
  result (get_ai_response [] (responding ok_response)
            (yielding [PStr (u "Hello")] StopIteration) (u "hi"))
  = Return (u "Hello")
  /\ api_refused_reply {| Telegram.message_id := 7; Telegram.text := u "hi" |} (u "Hello")
     = Raise (Exception (u "Message text is empty"))
  /\ snd (Handlers.handle_message [] (responding ok_response)
            (yielding [PStr (u "Hello")] StopIteration)
            api_ok_action api_refused_reply alice_update)
     = Raise (Exception (u "Message text is empty")).
Proof.
  split; [reflexivity|]. split; [reflexivity|].
  rewrite (handle_message_reply_failure_propagates [] (responding ok_response)
             (yielding [PStr (u "Hello")] StopIteration)
             api_ok_action api_refused_reply alice_update
             {| Telegram.message_id := 7; Telegram.text := u "hi" |}
             {| Telegram.first_name := u "Alice" |} {| Telegram.id := 42 |}
             (u "Hello") (Exception (u "Message text is empty"))
             eq_refl eq_refl eq_refl eq_refl eq_refl eq_refl).
  reflexivity.
Defined.

(** X13: an answer made of whitespace reaches Telegram as the empty string:
    when the status is 200 and the loop accumulated a non-empty text of
    whitespace only, the one reply the handler attempts has the empty text. *)
Theorem blank_answer_is_sent_empty
    (environ : environment) (requests_post : PostCall -> outcome Response)
    (sanitize_stream : stream_sanitizer)
    (send_chat_action : Z -> str -> outcome unit)
    (reply_text : Telegram.Message -> str -> outcome unit)
    (update : Telegram.Update) (msg : Telegram.Message)
    (user : Telegram.User) (chat : Telegram.Chat)
    (response : Response) (full_response : str) :
  Telegram.message update = Some msg ->
  Telegram.effective_user update = Some user ->
  Telegram.effective_chat update = Some chat ->
  send_chat_action (Telegram.id chat) (u "typing") = Return tt ->
  requests_post (post_call environ (Telegram.text msg)) = Return response ->
  status_code response = 200%Z ->
  result (stream_loop sanitize_stream (iter_lines response) []) = Return full_response ->
  full_response <> [] ->
  blank full_response ->
  filter is_reply
    (fst (Handlers.handle_message environ requests_post sanitize_stream
            send_chat_action reply_text update))
  = [ReplyText msg []].
Proof.
  intros Hm Hu Hc Hsend H Hs Hloop Hne Hblank.
  assert (Hask :
    get_ai_response environ requests_post sanitize_stream (Telegram.text msg)
    = ([RequestsPost (post_call environ (Telegram.text msg)); IterLines], Return [])).
  { rewrite (get_ai_response_ok _ _ _ _ _ H Hs), Hloop. unfold final_text.
    destruct full_response as [|c full]; [congruence|].
    simpl truthy. cbv iota. do 2 f_equal. now apply strip_nil_iff. }
  rewrite (handle_message_to_reply _ _ _ _ _ _ _ _ _ [] Hm Hu Hc Hsend)
    by (now rewrite Hask).
  rewrite Hask.
  destruct (reply_text msg []); reflexivity.
Qed.

Lemma blank_answer_run :
  responding ok_response (post_call [] (u "hi")) = Return ok_response
  /\ status_code ok_response = 200%Z
  /\ u " " ++ [10%N] <> []
  /\ blank (u " " ++ [10%N])
  /\ filter is_reply
       (fst (Handlers.handle_message [] (responding ok_response)
               (yielding [PStr (u " "); PStr [10%N]] StopIteration)
               api_ok_action api_refused_reply alice_update))
     = [ReplyText {| Telegram.message_id := 7; Telegram.text := u "hi" |} []].
Proof.
  assert (Hblank : blank (u " " ++ [10%N])) by (repeat constructor).
  split; [reflexivity|]. split; [reflexivity|]. split; [discriminate|].
  split; [exact Hblank|].
  exact (blank_answer_is_sent_empty [] (responding ok_response)
           (yielding [PStr (u " "); PStr [10%N]] StopIteration)
           api_ok_action api_refused_reply alice_update
           {| Telegram.message_id := 7; Telegram.text := u "hi" |}
           {| Telegram.first_name := u "Alice" |} {| Telegram.id := 42 |}
           ok_response (u " " ++ [10%N])
           eq_refl eq_refl eq_refl eq_refl eq_refl eq_refl eq_refl
           ltac:(discriminate) Hblank).
Defined.

(** X14: what stops the handler before the bot is asked.  An update without
    message, or without user, raises [AttributeError] before anything is
    logged or sent; one without chat raises it after the message was logged;
    a typing action that Telegram refuses ends the handler with that
    exception.  In each case no call goes to the completion endpoint and no
    reply is attempted. *)
Theorem handle_message_early_failures
    (environ : environment) (requests_post : PostCall -> outcome Response)
    (sanitize_stream : stream_sanitizer)
    (send_chat_action : Z -> str -> outcome unit)
    (reply_text : Telegram.Message -> str -> outcome unit)
    (update : Telegram.Update) :
  (Telegram.message update = None ->
   Handlers.handle_message environ requests_post sanitize_stream
     send_chat_action reply_text update
   = ([], Raise AttributeError))
  /\ (forall msg,
        Telegram.message update = Some msg ->
        Telegram.effective_user update = None ->
        Handlers.handle_message environ requests_post sanitize_stream
          send_chat_action reply_text update
        = ([], Raise AttributeError))
  /\ (forall msg user,
        Telegram.message update = Some msg ->
        Telegram.effective_user update = Some user ->
        Telegram.effective_chat update = None ->
        Handlers.handle_message environ requests_post sanitize_stream
          send_chat_action reply_text update
        = ([HandlerLog INFO
              (ReceivedMessage (Telegram.first_name user) (Telegram.text msg))],
           Raise AttributeError))
  /\ (forall msg user chat e,
        Telegram.message update = Some msg ->
        Telegram.effective_user update = Some user ->
        Telegram.effective_chat update = Some chat ->
        send_chat_action (Telegram.id chat) (u "typing") = Raise e ->
        Handlers.handle_message environ requests_post sanitize_stream
          send_chat_action reply_text update
        = ([HandlerLog INFO
              (ReceivedMessage (Telegram.first_name user) (Telegram.text msg));
            SendChatAction (Telegram.id chat) (u "typing")],
           Raise e)).
Proof.
  unfold Handlers.handle_message. repeat split.
  - intros ->. reflexivity.
  - intros msg -> ->. reflexivity.
  - intros msg user -> -> ->. reflexivity.
  - intros msg user chat e -> -> -> Hsend.
    unfold Handlers.hbind, Handlers.attr, Handlers.hret, Handlers.hemit,
      Handlers.do_send_chat_action.
    simpl. rewrite Hsend. reflexivity.
Qed.

Lemma edited_message_update_run :
  Telegram.message
    {| Telegram.message := None;
       Telegram.effective_user := Some {| Telegram.first_name := u "Alice" |};
       Telegram.effective_chat := Some {| Telegram.id := 42 |} |}
  = None
  /\ Handlers.handle_message [] (responding ok_response)
       (yielding [PStr (u "Hello")] StopIteration) api_ok_action api_ok_reply
       {| Telegram.message := None;
          Telegram.effective_user := Some {| Telegram.first_name := u "Alice" |};
          Telegram.effective_chat := Some {| Telegram.id := 42 |} |}
     = ([], Raise AttributeError).
Proof.
  split; [reflexivity|].
  exact (proj1 (handle_message_early_failures [] (responding ok_response)
                  (yielding [PStr (u "Hello")] StopIteration)
                  api_ok_action api_ok_reply
                  {| Telegram.message := None;
                     Telegram.effective_user :=
                       Some {| Telegram.first_name := u "Alice" |};
                     Telegram.effective_chat := Some {| Telegram.id := 42 |} |})
           eq_refl).
Defined.
